(** * fastmcp-auth0: the bearer-token gate of the FastMCP example server

    A shallow embedding of the Auth0 module (the [authenticate] entry
    point with its helpers [isNonEmptyString] and [getBaseUrl]) and of the
    scope gate [hasAllScopes] of the tools module, followed by the
    properties the specification states about them.

    Conventions of the embedding.
    - A JavaScript string is a [string]: a sequence of code units.  The
      program only measures length, compares for equality, tests a prefix,
      drops a prefix, trims and splits at U+0020, all of which act code
      unit by code unit.  Header values reach Node as latin-1 text, so
      eight-bit code units are exact for them.
    - A JavaScript object used as a dictionary (the request headers, the
      decoded claims, the [extra] attributes, the response headers) is a
      [gmap] keyed by property name; reading an absent property gives
      [JsUndefined].
    - [async] functions are modelled by their settled outcome: a value for
      a fulfilled promise, a thrown value for a rejected one.
    - The console is a log that every call appends to. *)

From Stdlib Require Import Ascii ZArith.
From stdpp Require Import gmap strings list.

Local Open Scope Z_scope.

(** ** JavaScript strings *)

Module Js.

(** The double quote character, U+0022. *)
Definition dquote : string := String "034"%char EmptyString.

(** [s.length > 0]. *)
Definition nonEmpty (s : string) : bool := Nat.ltb 0 (String.length s).

(** [s.startsWith(p)]. *)
Definition startsWith (s p : string) : bool := String.prefix p s.

(** [s.substring(n)] for [0 <= n]: the string without its first [n]
    code units (empty when it has no more than [n]). *)
Fixpoint substring (n : nat) (s : string) : string :=
  match n, s with
  | O, _ => s
  | S n', String _ r => substring n' r
  | S _, EmptyString => EmptyString
  end.

(** ECMAScript WhiteSpace and LineTerminator code units below 256. *)
Definition isWhiteSpace (c : ascii) : bool :=
  match c with
  | "009" | "010" | "011" | "012" | "013" | " " | "160" => true
  | _ => false
  end%char.

Fixpoint trimStart (s : string) : string :=
  match s with
  | EmptyString => EmptyString
  | String c r => if isWhiteSpace c then trimStart r else s
  end.

Definition trimEnd (s : string) : string :=
  String.rev (trimStart (String.rev s)).

(** [s.trim()]. *)
Definition trim (s : string) : string := trimEnd (trimStart s).

(** [s.includes(p)]. *)
Fixpoint includes (s p : string) : bool :=
  startsWith s p ||
  match s with
  | EmptyString => false
  | String _ r => includes r p
  end.

(** [s.split(" ")]: the pieces between consecutive U+0020 code units;
    the empty string gives one empty piece. *)
Fixpoint split_space (s : string) : list string :=
  match s with
  | EmptyString => [EmptyString]
  | String c r =>
      if Ascii.eqb c " "%char then EmptyString :: split_space r
      else match split_space r with
           | piece :: pieces => String c piece :: pieces
           | [] => [String c EmptyString]
           end
  end.

(** [xs.join(",")], which is what a template literal makes of an array. *)
Fixpoint join_comma (xs : list string) : string :=
  match xs with
  | [] => EmptyString
  | [x] => x
  | x :: rest => x +:+ "," +:+ join_comma rest
  end.

(** [xs.includes(x)] on an array of strings. *)
Fixpoint array_includes (xs : list string) (x : string) : bool :=
  match xs with
  | [] => false
  | y :: rest => String.eqb y x || array_includes rest x
  end.

(** A text that may stand inside a header value of the fetch [Headers]
    class: it holds no NUL, no line feed and no carriage return.  (A code
    unit above 255 is refused as well; the texts here have none.) *)
Fixpoint headerSafe (s : string) : bool :=
  match s with
  | EmptyString => true
  | String c r =>
      match c with
      | "000" | "010" | "013" => false
      | _ => headerSafe r
      end%char
  end.

(** [xs.every(p)]. *)
Fixpoint every {A} (p : A -> bool) (xs : list A) : bool :=
  match xs with
  | [] => true
  | x :: rest => p x && every p rest
  end.

End Js.

(** ** JavaScript values *)

(** The values a decoded JSON claim can take, and [undefined] for a
    property that is absent.  [JsNumber] carries integral numbers: the one
    number the program reads is [exp], which it only tests for truthiness
    and copies.  [JsObject] stands for any object or array. *)
Inductive JsValue : Type :=
  | JsUndefined
  | JsNull
  | JsBoolean (b : bool)
  | JsNumber (n : Z)
  | JsString (s : string)
  | JsObject.

(** ToBoolean. *)
Definition truthy (v : JsValue) : bool :=
  match v with
  | JsUndefined | JsNull => false
  | JsBoolean b => b
  | JsNumber n => negb (Z.eqb n 0)
  | JsString s => Js.nonEmpty s
  | JsObject => true
  end.

(** A decoded claims payload (jose's [JWTPayload]). *)
Abbreviation Claims := (gmap string JsValue).

(** Property access [o.k]. *)
Definition prop (o : gmap string JsValue) (k : string) : JsValue :=
  default JsUndefined (o !! k).

(** ** The authenticated session *)

(** [FastMCPAuthSession]: the SDK's [AuthInfo] fields the program fills.
    [expiresAt] is an optional property. *)
Record FastMCPAuthSession : Type := {
  token : string;
  clientId : JsValue;
  scopes : list string;
  expiresAt : option JsValue;
  extra : gmap string JsValue
}.

(** ** The scope gate (the tools module) *)

Definition hasAllScopes (requiredScopes : list string)
    (auth : FastMCPAuthSession) : bool :=
  let userScopes := scopes auth in
  Js.every (fun scope => Js.array_includes userScopes scope) requiredScopes.

(** ** Requests, errors and responses *)

(** A header of Node's [IncomingMessage.headers]: one string, or an array
    of strings for a header Node keeps unmerged. *)
Inductive HeaderValue : Type :=
  | HString (s : string)
  | HArray (xs : list string).

Abbreviation Headers := (gmap string HeaderValue).

(** ToBoolean of [headers.k]: absent and the empty string are falsy, an
    array is an object and so truthy. *)
Definition headerTruthy (h : option HeaderValue) : bool :=
  match h with
  | None => false
  | Some (HString s) => Js.nonEmpty s
  | Some (HArray _) => true
  end.

(** [a || b] on two header reads. *)
Definition headerOr (a b : option HeaderValue) : option HeaderValue :=
  if headerTruthy a then a else b.

(** [h === s] for a string literal [s]. *)
Definition headerIs (h : option HeaderValue) (s : string) : bool :=
  match h with
  | Some (HString x) => String.eqb x s
  | _ => false
  end.

(** The text a template literal makes of a header value. *)
Definition headerText (h : HeaderValue) : string :=
  match h with
  | HString s => s
  | HArray xs => Js.join_comma xs
  end.

(** The part of Node's [IncomingMessage] the program reads. *)
Record IncomingMessage : Type := {
  headers : Headers;
  url : option string
}.

(** The error classes the program tells apart with [instanceof]; they
    are unrelated classes of the Auth0 and MCP libraries.  [TypeError] is
    what [new URL] throws; [OtherError] is any other thrown value. *)
Inductive ErrorClass : Type :=
  | InvalidRequestError
  | VerifyAccessTokenError
  | InvalidTokenError
  | InsufficientScopeError
  | TypeError
  | OtherError.

Record JsError : Type := {
  kind : ErrorClass;
  message : string
}.

(** [new Response(null, init)]: status line and headers, no body. *)
Record Response : Type := {
  status : Z;
  statusText : string;
  responseHeaders : gmap string string
}.

(** What a [throw] can carry in this program. *)
Inductive Thrown : Type :=
  | ThrownError (e : JsError)
  | ThrownResponse (r : Response).

(** ** Console output and exceptions *)

Inductive ConsoleLine : Type :=
  | console_log (text : string)
  | console_warn (text : string) (detail : option JsError)
  | console_error (what : Thrown).

(** A computation appends lines to the console and then either throws or
    returns. *)
Definition M (A : Type) : Type := (list ConsoleLine * (Thrown + A))%type.

Definition ret {A} (a : A) : M A := ([], inr a).

Definition throw {A} (t : Thrown) : M A := ([], inl t).

Definition say (line : ConsoleLine) : M unit := ([line], inr tt).

Definition bind {A B} (m : M A) (k : A -> M B) : M B :=
  match m with
  | (out, inl t) => (out, inl t)
  | (out, inr a) => let '(out', r) := k a in (out ++ out', r)
  end.

(** [try { body } catch (error) { handler }]. *)
Definition try_catch {A} (body : M A) (handler : Thrown -> M A) : M A :=
  match body with
  | (out, inl t) => let '(out', r) := handler t in (out ++ out', r)
  | (out, inr a) => (out, inr a)
  end.

(** A library call that returns or throws an error. *)
Definition call {A} (r : JsError + A) : M A :=
  match r with
  | inl e => throw (ThrownError e)
  | inr a => ret a
  end.

(** How the call settled, the console left aside. *)
Definition outcome {A} (m : M A) : Thrown + A := snd m.

Declare Scope auth_scope.
Delimit Scope auth_scope with auth.
Notation "x <- m ;; k" := (bind m (fun x => k))
  (at level 100, m at next level, right associativity) : auth_scope.
Notation "m ;; k" := (bind m (fun _ => k))
  (at level 100, right associativity) : auth_scope.
Local Open Scope auth_scope.

Definition newError (c : ErrorClass) (msg : string) : Thrown :=
  ThrownError {| kind := c; message := msg |}.

(** ** The authentication entry point (the Auth0 module) *)

Definition isNonEmptyString (value : JsValue) : bool :=
  match value with
  | JsString s => Nat.ltb 0 (String.length s)
  | _ => false
  end.

(** The fixed texts of the program. *)
Definition NO_BEARER : string := "No Bearer token found in request".
Definition MISSING_SUB : string :=
  "Token is missing required subject (sub) claim".
Definition MISSING_CLIENT : string :=
  "Token is missing required client identification (client_id or azp claim).".

(** The [WWW-Authenticate] value of the 401 response. *)
Definition wwwAuthenticate (msg resourceMetadataUrl : string) : string :=
  "Bearer error=" +:+ Js.dquote +:+ "invalid_token" +:+ Js.dquote
  +:+ ", error_description=" +:+ Js.dquote +:+ msg +:+ Js.dquote
  +:+ ", resource_metadata=" +:+ Js.dquote +:+ resourceMetadataUrl
  +:+ Js.dquote.

(** [authHeaderRaw] and [authHeader]: the [Authorization] header under
    either spelling, its first entry when it is an array. *)
Definition authHeaderOf (request : IncomingMessage) : option string :=
  let authHeaderRaw :=
    headerOr (headers request !! "authorization")
             (headers request !! "Authorization") in
  match authHeaderRaw with
  | Some (HArray xs) => head xs
  | Some (HString s) => Some s
  | None => None
  end.

(** [!authHeader || typeof authHeader !== "string" ||
    !authHeader.startsWith("Bearer ")]. *)
Definition noBearer (authHeader : option string) : bool :=
  match authHeader with
  | None => true
  | Some s => negb (Js.nonEmpty s) || negb (Js.startsWith s "Bearer ")
  end.

(** [authHeader.substring(7).trim()]. *)
Definition accessTokenOf (authHeader : string) : string :=
  Js.trim (Js.substring 7 authHeader).

(** [decoded.scope.split(" ").filter(Boolean)]. *)
Definition scopesOf (scope : JsValue) : list string :=
  match scope with
  | JsString s => List.filter Js.nonEmpty (Js.split_space s)
  | _ => []
  end.

(** [...(cond && { k: v })] spread into an object literal. *)
Definition spreadIf (cond : bool) (k : string) (v : JsValue)
    (o : gmap string JsValue) : gmap string JsValue :=
  if cond then <[k := v]> o else o.

(** Lines 101-139: from the verified claims to the session, or an
    [InvalidTokenError]. *)
Definition buildSession (decoded : Claims) (accessToken : string)
    : M FastMCPAuthSession :=
  if negb (isNonEmptyString (prop decoded "sub")) then
    throw (newError InvalidTokenError MISSING_SUB)
  else
    let clientId :=
      if isNonEmptyString (prop decoded "client_id") then
        prop decoded "client_id"
      else if isNonEmptyString (prop decoded "azp") then
        prop decoded "azp"
      else JsNull in
    if negb (truthy clientId) then
      throw (newError InvalidTokenError MISSING_CLIENT)
    else
      ret {| token := accessToken;
             clientId := clientId;
             scopes := scopesOf (prop decoded "scope");
             expiresAt :=
               if truthy (prop decoded "exp") then Some (prop decoded "exp")
               else None;
             extra :=
               spreadIf (isNonEmptyString (prop decoded "email")) "email"
                        (prop decoded "email")
                 (spreadIf (isNonEmptyString (prop decoded "name")) "name"
                           (prop decoded "name")
                    (spreadIf (isNonEmptyString (prop decoded "azp")) "azp"
                              (prop decoded "azp")
                       (spreadIf (isNonEmptyString (prop decoded "client_id"))
                                 "client_id" (prop decoded "client_id")
                          {[ "sub" := prop decoded "sub" ]}))) |}.

Section Auth0.

(** [process.env.MCP_SERVER_URL]. *)
Variable env_MCP_SERVER_URL : option string.

(** The text of the constant [PORT] inside a template literal
    ([parseInt(process.env.PORT ?? "3001", 10)]). *)
Variable PORT : string.

(** The WHATWG [URL] class: [new URL(s)] gives a URL or throws a
    [TypeError]. *)
Variable URL : Type.
Variable new_URL : string -> option URL.

(** [getOAuthProtectedResourceMetadataUrl] of the MCP SDK. *)
Variable getOAuthProtectedResourceMetadataUrl : URL -> string.

(** [apiClient.verifyAccessToken({ accessToken })] of the Auth0 SDK, by
    how the one call of a request settles: the decoded claims, or an
    error.  Key fetching, caching and the clock are the library's. *)
Variable verifyAccessToken : string -> JsError + Claims.

(** [getToken(headers)] of the Auth0 SDK. *)
Variable getToken : Headers -> JsError + string.

Definition MCP_SERVER_URL : string :=
  match env_MCP_SERVER_URL with
  | Some v => v
  | None => "http://localhost:" +:+ PORT
  end.

(** [if (process.env.MCP_SERVER_URL)]. *)
Definition explicitlyConfigured : bool :=
  match env_MCP_SERVER_URL with
  | Some v => Js.nonEmpty v
  | None => false
  end.

Definition getBaseUrl (request : IncomingMessage) : string :=
  if explicitlyConfigured then MCP_SERVER_URL
  else
    let host :=
      headerOr (headers request !! "host")
               (headers request !! "x-forwarded-host") in
    match host with
    | Some h =>
        if headerTruthy host then
          let protocol :=
            if headerIs (headers request !! "x-forwarded-proto") "https"
            then "https"
            else if headerIs (headers request !! "x-forwarded-proto") "http"
            then "http"
            else if Js.startsWith MCP_SERVER_URL "https" then "https"
            else "http" in
          protocol +:+ "://" +:+ headerText h
        else MCP_SERVER_URL
    | None => MCP_SERVER_URL
    end.

(** Lines 61-139: the body of the [try]. *)
Definition authenticate_try (request : IncomingMessage)
    : M FastMCPAuthSession :=
  let requestUrl := default EmptyString (url request) in
  let isDiscoveryEndpoint := Js.includes requestUrl "/.well-known/" in
  let authHeader := authHeaderOf request in
  if noBearer authHeader then
    (if isDiscoveryEndpoint then
       say (console_warn
              ("[Auth] Discovery endpoint " +:+ requestUrl +:+
               " called authenticate - this may indicate a FastMCP routing issue")
              None)
     else
       say (console_log
              ("[Auth] No Bearer token in initial request to " +:+ requestUrl
               +:+ " - returning 401 with WWW-Authenticate header"))) ;;
    throw (newError InvalidRequestError NO_BEARER)
  else
    let accessToken := accessTokenOf (default EmptyString authHeader) in
    try_catch
      (call (getToken (headers request)) ;; ret tt)
      (fun error =>
         match error with
         | ThrownError {| kind := InvalidRequestError |} => ret tt
         | ThrownError e =>
             say (console_warn
                    "[Auth] getToken validation failed, but token extracted successfully:"
                    (Some e))
         | ThrownResponse _ =>
             say (console_warn
                    "[Auth] getToken validation failed, but token extracted successfully:"
                    None)
         end) ;;
    decoded <- call (verifyAccessToken accessToken) ;;
    buildSession decoded accessToken.

(** What [new Response] throws when it refuses a header value; the
    program never reads its text. *)
Definition INVALID_HEADER_VALUE : string := "invalid header value".

(** Lines 140-181: the [catch] block.  [new Response(null, { headers })]
    checks the [WWW-Authenticate] value and throws a [TypeError] when it
    holds a NUL, a line feed or a carriage return.  The fixed parts of the
    value hold none, and neither does the metadata URL, which is the [href]
    of a URL: the value is refused exactly when the error's message holds
    one.  The three lines are written to the console before the response
    is made. *)
Definition authenticate_catch (baseUrl : string) (error : Thrown)
    : M FastMCPAuthSession :=
  say (console_error error) ;;
  match error with
  | ThrownError {| kind := InvalidRequestError; message := msg |}
  | ThrownError {| kind := VerifyAccessTokenError; message := msg |}
  | ThrownError {| kind := InvalidTokenError; message := msg |} =>
      match new_URL baseUrl with
      | None => throw (newError TypeError "Invalid URL")
      | Some u =>
          let resourceMetadataUrl :=
            getOAuthProtectedResourceMetadataUrl u in
          let wwwAuthValue := wwwAuthenticate msg resourceMetadataUrl in
          say (console_log "[Auth] Returning 401 with WWW-Authenticate header") ;;
          say (console_log ("[Auth] Resource metadata URL: " +:+ resourceMetadataUrl)) ;;
          say (console_log ("[Auth] WWW-Authenticate value: " +:+ wwwAuthValue)) ;;
          if Js.headerSafe msg then
            throw (ThrownResponse
                     {| status := 401;
                        statusText := "Unauthorized";
                        responseHeaders :=
                          {[ "WWW-Authenticate" := wwwAuthValue ]} |})
          else throw (newError TypeError INVALID_HEADER_VALUE)
      end
  | ThrownError {| kind := InsufficientScopeError |} =>
      throw (ThrownResponse
               {| status := 403;
                  statusText := "Forbidden";
                  responseHeaders := ∅ |})
  | _ =>
      throw (ThrownResponse
               {| status := 500;
                  statusText := "Internal Server Error";
                  responseHeaders := ∅ |})
  end.

Definition authenticate (request : IncomingMessage)
    : M FastMCPAuthSession :=
  let baseUrl := getBaseUrl request in
  try_catch (authenticate_try request) (authenticate_catch baseUrl).

End Auth0.

(** ** The specification's wording, for comparison with the program *)

(** The effective base URL as the specification words it: the configured
    URL when there is one; else [scheme://host] with the scheme read from
    [X-Forwarded-Proto], the default scheme when that header is absent;
    else the default server URL. *)
Definition getBaseUrl_spec (env_MCP_SERVER_URL : option string)
    (PORT : string) (request : IncomingMessage) : string :=
  if explicitlyConfigured env_MCP_SERVER_URL then
    MCP_SERVER_URL env_MCP_SERVER_URL PORT
  else
    match headerOr (headers request !! "host")
                   (headers request !! "x-forwarded-host") with
    | Some h =>
        let scheme :=
          match headers request !! "x-forwarded-proto" with
          | Some p => headerText p
          | None =>
              if Js.startsWith (MCP_SERVER_URL env_MCP_SERVER_URL PORT) "https"
              then "https" else "http"
          end in
        scheme +:+ "://" +:+ headerText h
    | None => MCP_SERVER_URL env_MCP_SERVER_URL PORT
    end.

(** The client-identity rule as the specification words it, for any
    claims payload: [client_id] if a non-empty string, else [azp] if a
    non-empty string, else the missing-client-identity error. *)
Definition clientIdentity_spec (decoded : Claims) : Thrown + JsValue :=
  if isNonEmptyString (prop decoded "client_id") then
    inr (prop decoded "client_id")
  else if isNonEmptyString (prop decoded "azp") then
    inr (prop decoded "azp")
  else inl (newError InvalidTokenError MISSING_CLIENT).

(** A scope string laid out from its tokens: [lead] spaces, then the
    tokens, consecutive ones one space and [gap] more apart, then the
    last token's [gap] as trailing spaces. *)
Fixpoint spaces (n : nat) : string :=
  match n with
  | O => EmptyString
  | S n' => String " "%char (spaces n')
  end.

Fixpoint layout (lead : nat) (tokens : list (string * nat)) : string :=
  spaces lead +:+
  match tokens with
  | [] => EmptyString
  | (t, gap) :: rest =>
      t +:+
      match rest with
      | [] => spaces gap
      | _ :: _ => String " "%char (layout gap rest)
      end
  end.

(** A scope token: at least one code unit, none of them a space. *)
Fixpoint spaceFree (s : string) : bool :=
  match s with
  | EmptyString => true
  | String c r => negb (Ascii.eqb c " "%char) && spaceFree r
  end.

Definition isToken (s : string) : bool := Js.nonEmpty s && spaceFree s.

(** The three responses the [catch] block builds. *)
Definition unauthorized (msg resourceMetadataUrl : string) : Response :=
  {| status := 401;
     statusText := "Unauthorized";
     responseHeaders :=
       {[ "WWW-Authenticate" := wwwAuthenticate msg resourceMetadataUrl ]} |}.


Definition internalServerError : Response :=
  {| status := 500; statusText := "Internal Server Error";
     responseHeaders := ∅ |}.


(** What the verifier guarantees of [exp] in the claims it returns: the
    Auth0 SDK validates [exp] and refuses an expired token, so an [exp]
    that is present is a number, later than the time of verification and
    hence positive. *)
Definition expiryValidated (decoded : Claims) : Prop :=
  forall v, decoded !! "exp" = Some v -> exists n, v = JsNumber n /\ 0 < n.

(** The attributes the session may carry in [extra]. *)
Definition extraKeys : list string :=
  ["sub"; "client_id"; "azp"; "name"; "email"].

(** ** Sample collaborators and inputs

    Concrete stand-ins for the libraries, for running the program on
    concrete requests. *)

Module Sample.

(** A URL kept as its text.  A text with a space in it is refused, as
    the WHATWG parser refuses a space in a host. *)
Definition new_URL (s : string) : option string :=
  if Js.includes s " " then None else Some s.

Definition metadataUrl (u : string) : string :=
  u +:+ "/.well-known/oauth-protected-resource".

(** A verifier that accepts every token with the same claims, and one
    that rejects every token with the same error. *)
Definition accepts (decoded : Claims) : string -> JsError + Claims :=
  fun _ => inr decoded.

Definition rejects (e : JsError) : string -> JsError + Claims :=
  fun _ => inl e.

Definition getToken_ok : Headers -> JsError + string :=
  fun _ => inr "abc.def.ghi".

Definition getToken_throws : Headers -> JsError + string :=
  fun _ => inl {| kind := OtherError; message := "unsupported" |}.

Definition alice : Claims :=
  {[ "sub" := JsString "auth0|alice";
     "azp" := JsString "app1";
     "scope" := JsString " tool:whoami  tool:greet ";
     "exp" := JsNumber 1900000000;
     "name" := JsString "Alice";
     "email" := JsString EmptyString ]}.

(** Claims that are complete but for the subject. *)
Definition no_subject : Claims :=
  {[ "client_id" := JsString "app1";
     "scope" := JsString "tool:whoami" ]}.

(** Claims with a scope and nothing else. *)
Definition only_scope : Claims :=
  {[ "scope" := JsString "tool:whoami" ]}.

(** The session built from [alice]. *)
Definition alice_session : FastMCPAuthSession :=
  {| token := "abc.def.ghi";
     clientId := JsString "app1";
     scopes := ["tool:whoami"; "tool:greet"];
     expiresAt := Some (JsNumber 1900000000);
     extra := {[ "name" := JsString "Alice";
                 "azp" := JsString "app1";
                 "sub" := JsString "auth0|alice" ]} |}.

Definition with_bearer : IncomingMessage :=
  {| headers := {[ "authorization" := HString "Bearer  abc.def.ghi ";
                   "host" := HString "mcp.example.com" ]};
     url := Some "/mcp" |}.

Definition anonymous : IncomingMessage :=
  {| headers := {[ "host" := HString "mcp.example.com" ]};
     url := Some "/mcp" |}.

(** A request whose [Host] is no host name. *)
Definition bad_host : IncomingMessage :=
  {| headers := {[ "host" := HString "bad host" ]};
     url := Some "/mcp" |}.

(** A request forwarded by a proxy that speaks web sockets. *)
Definition forwarded_wss : IncomingMessage :=
  {| headers := {[ "host" := HString "mcp.example.com";
                   "x-forwarded-proto" := HString "wss" ]};
     url := Some "/mcp" |}.

End Sample.

(** ** The tools module: the registered tools *)

Module Tools.

Definition MCP_TOOL_SCOPES : list string := ["tool:greet"; "tool:whoami"].

(** An item of the [content] a tool returns: [{ type: "text", text }]. *)
Inductive Content : Type :=
  | TextContent (text : string).

(** The part of a tool definition the gate is about: the tool's name and
    its [canAccess], when it has one.  Descriptions, annotations and
    parameter schemas play no part in what follows; the bodies of
    [whoami] ([JSON.stringify]) and [get_datetime] (the clock) are not
    modelled. *)
Record Tool : Type := {
  name : string;
  canAccess : option (FastMCPAuthSession -> bool)
}.

(** The text a template literal makes of a value: a string is itself,
    [undefined] is the word [undefined]; what ToString makes of the other
    values is left to [other]. *)
Definition templateText (other : JsValue -> string) (v : JsValue) : string :=
  match v with
  | JsString s => s
  | JsUndefined => "undefined"
  | _ => other v
  end.

(** [authInfo?.extra?.sub]. *)
Definition subOf (authInfo : option FastMCPAuthSession) : JsValue :=
  match authInfo with
  | Some auth => prop (extra auth) "sub"
  | None => JsUndefined
  end.

(** The line feed, U+000A. *)
Definition LF : string := String "010"%char EmptyString.

(** [execute] of the [greet] tool, [args.name] being an optional
    string. *)
Definition greet_execute (other : JsValue -> string) (name : option string)
    (authInfo : option FastMCPAuthSession) : M (list Content) :=
  let userName := default "there" name in
  say (console_log ("Greet tool invoked for user: "
                    +:+ templateText other (subOf authInfo))) ;;
  ret [TextContent
         (Js.trim
            ("Hello, " +:+ userName +:+ " ("
             +:+ templateText other (subOf authInfo) +:+ ")!" +:+ LF +:+ LF
             +:+ "FastMCP with Auth0 OAuth integration is working!" +:+ LF
             +:+ "Authentication and scope checks are working correctly."))].

Definition greet : Tool :=
  {| name := "greet"; canAccess := Some (hasAllScopes ["tool:greet"]) |}.

Definition whoami : Tool :=
  {| name := "whoami"; canAccess := Some (hasAllScopes ["tool:whoami"]) |}.

(** "This tool does not require any scopes": it has no [canAccess]. *)
Definition get_datetime : Tool :=
  {| name := "get_datetime"; canAccess := None |}.

(** [registerTools(mcpServer)]: three calls of [addTool], each adding a
    tool to those the server holds. *)
Definition registerTools (tools : list Tool) : list Tool :=
  tools ++ [greet] ++ [whoami] ++ [get_datetime].

(** Whether the server offers a tool to a session: a tool without
    [canAccess] is open to every session ("no scope required", as the
    README says of [get_datetime]), any other to the sessions its
    [canAccess] accepts. *)
Definition offered (auth : FastMCPAuthSession) (tool : Tool) : bool :=
  match canAccess tool with
  | Some gate => gate auth
  | None => true
  end.

End Tools.

(** ** The server module: the OAuth discovery metadata *)

Module Server.

(** An environment variable inside a template literal: an unset variable
    reads as the word [undefined]. *)
Definition envText (v : option string) : string := default "undefined" v.

Record ProtectedResource : Type := {
  resource : option string;
  authorizationServers : list string;
  jwksUri : string;
  scopesSupported : list string
}.

Record AuthorizationServer : Type := {
  issuer : string;
  authorizationEndpoint : string;
  tokenEndpoint : string;
  as_jwksUri : string;
  responseTypesSupported : list string;
  as_scopesSupported : list string
}.

(** [oauth.protectedResource], from [process.env.AUTH0_DOMAIN] and
    [process.env.AUTH0_AUDIENCE]. *)
Definition protectedResource (AUTH0_DOMAIN AUTH0_AUDIENCE : option string)
    : ProtectedResource :=
  {| resource := AUTH0_AUDIENCE;
     authorizationServers := ["https://" +:+ envText AUTH0_DOMAIN +:+ "/"];
     jwksUri := "https://" +:+ envText AUTH0_DOMAIN +:+ "/.well-known/jwks.json";
     scopesSupported :=
       ["openid"; "profile"; "email"] ++ Tools.MCP_TOOL_SCOPES |}.

(** [oauth.authorizationServer]. *)
Definition authorizationServer (AUTH0_DOMAIN : option string)
    : AuthorizationServer :=
  {| issuer := "https://" +:+ envText AUTH0_DOMAIN +:+ "/";
     authorizationEndpoint :=
       "https://" +:+ envText AUTH0_DOMAIN +:+ "/authorize";
     tokenEndpoint := "https://" +:+ envText AUTH0_DOMAIN +:+ "/oauth/token";
     as_jwksUri :=
       "https://" +:+ envText AUTH0_DOMAIN +:+ "/.well-known/jwks.json";
     responseTypesSupported := ["code"];
     as_scopesSupported :=
       ["openid"; "profile"; "email"] ++ Tools.MCP_TOOL_SCOPES |}.

End Server.

(** ** Predicates on texts, for stating properties *)

(** Every code unit is white space. *)
Fixpoint allWhite (s : string) : bool :=
  match s with
  | EmptyString => true
  | String c r => Js.isWhiteSpace c && allWhite r
  end.

(** The text does not start with white space. *)
Definition startsClean (s : string) : bool :=
  match s with
  | EmptyString => true
  | String c _ => negb (Js.isWhiteSpace c)
  end.

(** The text does not end with white space. *)
Definition endsClean (s : string) : bool := startsClean (String.rev s).

(** No code unit is a double quote. *)
Fixpoint quoteFree (s : string) : bool :=
  match s with
  | EmptyString => true
  | String c r => negb (Ascii.eqb c "034"%char) && quoteFree r
  end.

(** ** More sample inputs *)

Module Probe.

(** The bearer request of [Sample], sent to another path with one more
    header. *)
Definition with_bearer_elsewhere : IncomingMessage :=
  {| headers := {[ "authorization" := HString "Bearer  abc.def.ghi ";
                   "host" := HString "mcp.example.com";
                   "user-agent" := HString "inspector" ]};
     url := Some "/.well-known/oauth-protected-resource" |}.

(** A request whose credential is the scheme and blanks. *)
Definition blank_bearer : IncomingMessage :=
  {| headers := {[ "authorization" := HString "Bearer   ";
                   "host" := HString "mcp.example.com" ]};
     url := Some "/mcp" |}.

(** The scope string of [Sample.alice], token by token. *)
Definition alice_tokens : list (string * nat) :=
  [("tool:whoami", 1%nat); ("tool:greet", 1%nat)].

(** Claims whose scope string has a tab between two spaces. *)
Definition tabbed_scope : Claims :=
  {[ "sub" := JsString "auth0|alice";
     "client_id" := JsString "app1";
     "scope" := JsString ("tool:whoami " +:+ String "009" " tool:greet") ]}.

(** A session granted every scope the server advertises. *)
Definition full_session : FastMCPAuthSession :=
  {| token := "abc.def.ghi";
     clientId := JsString "app1";
     scopes := ["openid"; "profile"; "email"; "tool:greet"; "tool:whoami"];
     expiresAt := None;
     extra := {[ "sub" := JsString "auth0|alice" ]} |}.

(** ToString left undecided: values that are neither a string nor
    [undefined] print as a question mark. *)
Definition other_text (v : JsValue) : string := "?".

End Probe.

(** * Properties *)

(** Reads a key off an object literal built by successive inserts. *)
Ltac lookup_literal :=
  repeat first
    [ rewrite lookup_insert_eq
    | rewrite lookup_insert_ne by congruence
    | rewrite lookup_singleton_eq
    | rewrite lookup_singleton_ne by congruence
    | rewrite lookup_empty ];
  try reflexivity.

(** ** The console-and-exception monad *)

Lemma outcome_bind {A B} (m : M A) (k : A -> M B) :
  outcome (bind m k) =
  match outcome m with
  | inl t => inl t
  | inr a => outcome (k a)
  end.
Proof.
  destruct m as [out [t|a]]; simpl; [reflexivity|].
  destruct (k a); reflexivity.
Qed.

Lemma outcome_try_catch {A} (m : M A) (h : Thrown -> M A) :
  outcome (try_catch m h) =
  match outcome m with
  | inl t => outcome (h t)
  | inr a => inr a
  end.
Proof.
  destruct m as [out [t|a]]; simpl; [|reflexivity].
  destruct (h t); reflexivity.
Qed.

(** ** The scope gate *)

Lemma array_includes_elem_of (xs : list string) (x : string) :
  Js.array_includes xs x = true <-> x ∈ xs.
Proof.
  induction xs as [|y rest IH]; simpl.
  - split; [discriminate | intros H; inversion H].
  - rewrite orb_true_iff, IH, String.eqb_eq, elem_of_cons.
    split; intros [H|H]; auto.
Qed.

Lemma every_Forall {A} (p : A -> bool) (xs : list A) :
  Js.every p xs = true <-> Forall (fun x => p x = true) xs.
Proof.
  induction xs as [|x rest IH]; simpl.
  - split; [constructor | reflexivity].
  - rewrite andb_true_iff, IH, Forall_cons. reflexivity.
Qed.

(** C2.  The gate answers [true] exactly when every required scope is
    one of the session's scopes (the required scopes are included in the
    granted ones); with no required scope it always answers [true]. *)
Theorem hasAllScopes_iff_subset :
  (forall (requiredScopes : list string) (auth : FastMCPAuthSession),
      hasAllScopes requiredScopes auth = true
      <-> (forall scope, scope ∈ requiredScopes -> scope ∈ scopes auth))
  /\ (forall auth : FastMCPAuthSession, hasAllScopes [] auth = true).
Proof.
  split; [|reflexivity].
  intros requiredScopes auth. unfold hasAllScopes.
  rewrite every_Forall, Forall_forall.
  split; intros H scope Hin.
  - apply array_includes_elem_of, H, Hin.
  - apply array_includes_elem_of, H, Hin.
Qed.

(** ** Building the session *)

Lemma isNonEmptyString_truthy (v : JsValue) :
  isNonEmptyString v = true -> truthy v = true.
Proof. destruct v; simpl; auto; discriminate. Qed.

Lemma isNonEmptyString_inv (v : JsValue) :
  isNonEmptyString v = true ->
  exists s, v = JsString s /\ s <> EmptyString.
Proof.
  destruct v as [| | | |s|]; simpl; try discriminate.
  intros H. exists s. split; [reflexivity|].
  intros ->. discriminate.
Qed.

Lemma isNonEmptyString_absent (decoded : Claims) (k : string) :
  decoded !! k = None \/ decoded !! k = Some (JsString EmptyString) ->
  isNonEmptyString (prop decoded k) = false.
Proof. unfold prop. intros [-> | ->]; reflexivity. Qed.

(** Whether the session is built, and which error is thrown when it is
    not, is decided by [sub], [client_id] and [azp] alone. *)
Lemma buildSession_cases (decoded : Claims) (accessToken : string) :
  (isNonEmptyString (prop decoded "sub") = false
   /\ buildSession decoded accessToken
      = throw (newError InvalidTokenError MISSING_SUB))
  \/ (isNonEmptyString (prop decoded "sub") = true
      /\ isNonEmptyString (prop decoded "client_id") = false
      /\ isNonEmptyString (prop decoded "azp") = false
      /\ buildSession decoded accessToken
         = throw (newError InvalidTokenError MISSING_CLIENT))
  \/ (isNonEmptyString (prop decoded "sub") = true
      /\ (isNonEmptyString (prop decoded "client_id") = true
          \/ isNonEmptyString (prop decoded "azp") = true)
      /\ exists session,
           buildSession decoded accessToken = ret session
           /\ token session = accessToken
           /\ clientId session
              = (if isNonEmptyString (prop decoded "client_id")
                 then prop decoded "client_id" else prop decoded "azp")
           /\ scopes session = scopesOf (prop decoded "scope")
           /\ expiresAt session
              = (if truthy (prop decoded "exp")
                 then Some (prop decoded "exp") else None)
           /\ extra session !! "sub" = Some (prop decoded "sub")).
Proof.
  unfold buildSession.
  destruct (isNonEmptyString (prop decoded "sub")) eqn:Hsub; simpl;
    [|left; auto].
  right.
  destruct (isNonEmptyString (prop decoded "client_id")) eqn:Hcid.
  - right. rewrite (isNonEmptyString_truthy _ Hcid). simpl.
    repeat split; auto. eexists. repeat split.
    unfold spreadIf. simpl.
    repeat (match goal with
            | |- context [if ?b then _ else _] => destruct b
            end; simplify_map_eq; try reflexivity).
  - destruct (isNonEmptyString (prop decoded "azp")) eqn:Hazp.
    + right. rewrite (isNonEmptyString_truthy _ Hazp). simpl.
      repeat split; auto. eexists. repeat split.
      unfold spreadIf. simpl.
      repeat (match goal with
              | |- context [if ?b then _ else _] => destruct b
              end; simplify_map_eq; try reflexivity).
    + left. simpl. auto.
Qed.

(** ** The body of [authenticate] *)

Section EntryPoint.

Context (env_MCP_SERVER_URL : option string) (PORT : string).
Context (URL : Type) (new_URL : string -> option URL).
Context (metadataUrl : URL -> string).

Local Abbreviation run verify getToken :=
    (authenticate env_MCP_SERVER_URL PORT URL new_URL metadataUrl
                  verify getToken).
Local Abbreviation handler request :=
    (authenticate_catch URL new_URL metadataUrl
                        (getBaseUrl env_MCP_SERVER_URL PORT request)).

  (** Whatever [getToken] does, the inner [try] completes normally. *)
Lemma getToken_swallowed (r : JsError + string) :
    outcome
      (try_catch
         (call r ;; ret tt)
         (fun error =>
            match error with
            | ThrownError {| kind := InvalidRequestError |} => ret tt
            | ThrownError e =>
                say (console_warn
                       "[Auth] getToken validation failed, but token extracted successfully:"
                       (Some e))
            | ThrownResponse _ =>
                say (console_warn
                       "[Auth] getToken validation failed, but token extracted successfully:"
                       None)
            end))
    = inr tt.
Proof. destruct r as [[[] msg]|tok]; reflexivity. Qed.

  (** The body of the [try], by cases: no bearer header; a token the
      verifier refuses; a token the verifier accepts. *)
Lemma outcome_authenticate_try verify getToken (request : IncomingMessage) :
    outcome (authenticate_try verify getToken request) =
    if noBearer (authHeaderOf request) then
      inl (newError InvalidRequestError NO_BEARER)
    else
      let accessToken :=
        accessTokenOf (default EmptyString (authHeaderOf request)) in
      match verify accessToken with
      | inl e => inl (ThrownError e)
      | inr decoded => outcome (buildSession decoded accessToken)
      end.
Proof.
    unfold authenticate_try.
    destruct (noBearer (authHeaderOf request)).
    - rewrite outcome_bind.
      destruct (Js.includes _ _); reflexivity.
    - cbv zeta. rewrite outcome_bind, getToken_swallowed, outcome_bind.
      destruct (verify _); reflexivity.
Qed.

Lemma outcome_authenticate verify getToken (request : IncomingMessage) :
    outcome (run verify getToken request) =
    match outcome (authenticate_try verify getToken request) with
    | inl t => outcome (handler request t)
    | inr session => inr session
    end.
Proof. unfold authenticate. cbv zeta. apply outcome_try_catch. Qed.

  (** The [catch] block never returns a session. *)
Lemma authenticate_catch_throws (baseUrl : string) (error : Thrown) :
    exists t, outcome (authenticate_catch URL new_URL metadataUrl baseUrl error)
              = inl t.
Proof.
    unfold authenticate_catch. rewrite outcome_bind. simpl.
    destruct error as [[[] msg]|r]; simpl; eauto;
      destruct (new_URL baseUrl); simpl; eauto;
      destruct (Js.headerSafe msg); simpl; eauto.
Qed.

  (** The [catch] block, by error class. *)
Lemma authenticate_catch_unauthorized (baseUrl : string) (e : JsError) (u : URL) :
    kind e = InvalidRequestError \/ kind e = VerifyAccessTokenError
    \/ kind e = InvalidTokenError ->
    Js.headerSafe (message e) = true ->
    new_URL baseUrl = Some u ->
    outcome (authenticate_catch URL new_URL metadataUrl baseUrl (ThrownError e))
    = inl (ThrownResponse
             {| status := 401;
                statusText := "Unauthorized";
                responseHeaders :=
                  {[ "WWW-Authenticate" :=
                       wwwAuthenticate (message e) (metadataUrl u) ]} |}).
Proof.
    intros Hk Hsafe Hu. unfold authenticate_catch. rewrite outcome_bind. simpl.
    destruct e as [k msg]. simpl in Hk, Hsafe.
    destruct Hk as [-> | [-> | ->]]; rewrite Hu, Hsafe; reflexivity.
Qed.


Lemma authenticate_catch_invalid_url (baseUrl : string) (e : JsError) :
    kind e = InvalidRequestError \/ kind e = VerifyAccessTokenError
    \/ kind e = InvalidTokenError ->
    new_URL baseUrl = None ->
    outcome (authenticate_catch URL new_URL metadataUrl baseUrl (ThrownError e))
    = inl (newError TypeError "Invalid URL").
Proof.
    intros Hk Hu. unfold authenticate_catch. rewrite outcome_bind. simpl.
    destruct e as [k msg]. simpl in Hk.
    destruct Hk as [-> | [-> | ->]]; rewrite Hu; reflexivity.
Qed.



(** [buildSession] writes nothing to the console: how it settles is all
    there is to it. *)
Lemma buildSession_outcome (decoded : Claims) (accessToken : string)
    (r : Thrown + FastMCPAuthSession) :
  outcome (buildSession decoded accessToken) = r
  <-> buildSession decoded accessToken = ([], r).
Proof.
  destruct (buildSession_cases decoded accessToken)
    as [(_ & ->) | [(_ & _ & _ & ->) | (_ & _ & s & -> & _)]];
    unfold throw, ret; simpl; split; intros H; congruence.
Qed.

(** [authenticate] returns a session exactly when the request carries a
    bearer header, the verifier accepts the token cut out of it, and the
    session can be built from the decoded claims. *)
Lemma authenticate_returns verify getToken (request : IncomingMessage)
    (session : FastMCPAuthSession) :
  outcome (run verify getToken request) = inr session
  <-> exists authHeader decoded,
        authHeaderOf request = Some authHeader
        /\ noBearer (Some authHeader) = false
        /\ verify (accessTokenOf authHeader) = inr decoded
        /\ buildSession decoded (accessTokenOf authHeader) = ret session.
Proof.
  rewrite outcome_authenticate, outcome_authenticate_try.
  destruct (authHeaderOf request) as [authHeader|] eqn:Hh.
  - destruct (noBearer (Some authHeader)) eqn:Hb.
    + split.
      * destruct (authenticate_catch_throws
                    (getBaseUrl env_MCP_SERVER_URL PORT request)
                    (newError InvalidRequestError NO_BEARER)) as [t ->].
        discriminate.
      * intros (h & d & Heq & Hnb & _). congruence.
    + cbv zeta. simpl default.
      destruct (verify (accessTokenOf authHeader)) as [e|decoded] eqn:Hv.
      * split.
        -- destruct (authenticate_catch_throws
                       (getBaseUrl env_MCP_SERVER_URL PORT request)
                       (ThrownError e)) as [t ->].
           discriminate.
        -- intros (h & d & Heq & _ & Hv' & _).
           injection Heq as <-. congruence.
      * destruct (outcome (buildSession decoded (accessTokenOf authHeader)))
          as [t|s] eqn:Hs.
        -- split.
           ++ destruct (authenticate_catch_throws
                          (getBaseUrl env_MCP_SERVER_URL PORT request) t)
                as [t' ->].
              discriminate.
           ++ intros (h & d & Heq & _ & Hv' & Hb').
              injection Heq as <-. rewrite Hv in Hv'. injection Hv' as <-.
              rewrite Hb' in Hs. discriminate.
        -- split.
           ++ intros [= <-]. exists authHeader, decoded.
              repeat split; auto. apply buildSession_outcome, Hs.
           ++ intros (h & d & Heq & _ & Hv' & Hb').
              injection Heq as <-. rewrite Hv in Hv'. injection Hv' as <-.
              rewrite Hb' in Hs. simpl in Hs. congruence.
  - simpl. split.
    + destruct (authenticate_catch_throws
                  (getBaseUrl env_MCP_SERVER_URL PORT request)
                  (newError InvalidRequestError NO_BEARER)) as [t ->].
      discriminate.
    + intros (h & d & Heq & _). discriminate.
Qed.

(** [authenticate] always settles: with a session or with a thrown
    value. *)
Lemma authenticate_fails_otherwise verify getToken (request : IncomingMessage) :
  (forall session, outcome (run verify getToken request) <> inr session) ->
  exists t, outcome (run verify getToken request) = inl t.
Proof.
  intros H. destruct (outcome (run verify getToken request)) as [t|s].
  - eauto.
  - destruct (H s). reflexivity.
Qed.

(** C1.  [authenticate] returns a session if and only if the request
    carries a bearer token, [verifyAccessToken] accepts that token, the
    [sub] claim is a non-empty string and [client_id] or [azp] is a
    non-empty string.  In every other case it fails (it throws).  A session
    that is returned is complete: it holds the verified token, a non-empty
    client identity and the non-empty subject. *)
Theorem authenticate_session_iff verify getToken (request : IncomingMessage) :
  ((exists session, outcome (run verify getToken request) = inr session)
   <-> exists authHeader decoded,
         authHeaderOf request = Some authHeader
         /\ noBearer (Some authHeader) = false
         /\ verify (accessTokenOf authHeader) = inr decoded
         /\ isNonEmptyString (prop decoded "sub") = true
         /\ (isNonEmptyString (prop decoded "client_id") = true
             \/ isNonEmptyString (prop decoded "azp") = true))
  /\ ((forall session, outcome (run verify getToken request) <> inr session)
      -> exists t, outcome (run verify getToken request) = inl t)
  /\ (forall session,
        outcome (run verify getToken request) = inr session ->
        exists authHeader decoded sub client,
          authHeaderOf request = Some authHeader
          /\ verify (accessTokenOf authHeader) = inr decoded
          /\ token session = accessTokenOf authHeader
          /\ prop decoded "sub" = JsString sub /\ sub <> EmptyString
          /\ extra session !! "sub" = Some (JsString sub)
          /\ clientId session = JsString client /\ client <> EmptyString).
Proof.
  split; [|split].
  - split.
    + intros (session & Hs). apply authenticate_returns in Hs.
      destruct Hs as (authHeader & decoded & Hh & Hb & Hv & Hbuild).
      exists authHeader, decoded. repeat split; auto.
      * destruct (buildSession_cases decoded (accessTokenOf authHeader))
          as [(_ & H) | [(_ & _ & _ & H) | (H & _)]];
          [rewrite H in Hbuild; discriminate ..| exact H].
      * destruct (buildSession_cases decoded (accessTokenOf authHeader))
          as [(_ & H) | [(_ & _ & _ & H) | (_ & H & _)]];
          [rewrite H in Hbuild; discriminate ..| exact H].
    + intros (authHeader & decoded & Hh & Hb & Hv & Hsub & Hclient).
      destruct (buildSession_cases decoded (accessTokenOf authHeader))
        as [(H & _) | [(_ & H1 & H2 & _) | (_ & _ & session & Hbuild & _)]].
      * congruence.
      * destruct Hclient; congruence.
      * exists session. apply authenticate_returns. eauto 10.
  - apply authenticate_fails_otherwise.
  - intros session Hs. apply authenticate_returns in Hs.
    destruct Hs as (authHeader & decoded & Hh & Hb & Hv & Hbuild).
    destruct (buildSession_cases decoded (accessTokenOf authHeader))
      as [(_ & H) | [(_ & _ & _ & H) | (Hsub & Hclient & s & H & Ht & Hc & _ & _ & Hx)]];
      [rewrite H in Hbuild; discriminate ..|].
    rewrite H in Hbuild. injection Hbuild as <-.
    destruct (isNonEmptyString_inv _ Hsub) as (sub & Esub & Nsub).
    assert (isNonEmptyString (clientId s) = true) as Hcs.
    { rewrite Hc. destruct (isNonEmptyString (prop decoded "client_id")) eqn:E;
        [exact E | destruct Hclient; [discriminate | assumption]]. }
    destruct (isNonEmptyString_inv _ Hcs) as (client & Eclient & Nclient).
    exists authHeader, decoded, sub, client.
    rewrite Hx, Esub. repeat split; auto.
Qed.

(** With a bearer header, [authenticate] is the verifier's answer for the
    token cut out of that header, passed on to the session builder or to
    the [catch] block. *)
Lemma authenticate_with_bearer verify getToken (request : IncomingMessage)
    (authHeader : string) :
  authHeaderOf request = Some authHeader ->
  noBearer (Some authHeader) = false ->
  outcome (run verify getToken request) =
  match verify (accessTokenOf authHeader) with
  | inl e => outcome (handler request (ThrownError e))
  | inr decoded =>
      match outcome (buildSession decoded (accessTokenOf authHeader)) with
      | inl t => outcome (handler request t)
      | inr session => inr session
      end
  end.
Proof.
  intros Hh Hb.
  rewrite outcome_authenticate, outcome_authenticate_try, Hh, Hb.
  cbv zeta. simpl default.
  destruct (verify (accessTokenOf authHeader)); reflexivity.
Qed.

(** C10.  For a request with a well-formed bearer header, how
    [authenticate] settles does not depend on [getToken]: whether that call
    returns or throws, the outcome is the same.  The token handed to the
    verifier, and stored in a returned session, is the header value without
    its first seven code units ("Bearer "), trimmed. *)
Theorem authenticate_ignores_getToken (request : IncomingMessage)
    (authHeader : string) :
  authHeaderOf request = Some authHeader ->
  noBearer (Some authHeader) = false ->
  (forall verify getToken1 getToken2,
      outcome (run verify getToken1 request)
      = outcome (run verify getToken2 request))
  /\ (forall verify getToken,
        outcome (run verify getToken request) =
        match verify (Js.trim (Js.substring 7 authHeader)) with
        | inl e => outcome (handler request (ThrownError e))
        | inr decoded =>
            match outcome (buildSession decoded
                             (Js.trim (Js.substring 7 authHeader))) with
            | inl t => outcome (handler request t)
            | inr session => inr session
            end
        end)
  /\ (forall verify getToken session,
        outcome (run verify getToken request) = inr session ->
        token session = Js.trim (Js.substring 7 authHeader)).
Proof.
  intros Hh Hb. split; [|split].
  - intros verify getToken1 getToken2.
    rewrite !(authenticate_with_bearer _ _ _ _ Hh Hb). reflexivity.
  - intros verify getToken.
    apply (authenticate_with_bearer _ _ _ _ Hh Hb).
  - intros verify getToken session Hs.
    apply authenticate_returns in Hs.
    destruct Hs as (h & decoded & Hh' & _ & _ & Hbuild).
    rewrite Hh in Hh'. injection Hh' as <-.
    destruct (buildSession_cases decoded (accessTokenOf authHeader))
      as [(_ & H) | [(_ & _ & _ & H) | (_ & _ & s & H & Ht & _)]];
      [rewrite H in Hbuild; discriminate ..|].
    rewrite H in Hbuild. injection Hbuild as <-. exact Ht.
Qed.

(** C5.  Claims whose [sub] is absent or the empty string never give a
    session, whatever the other claims hold: the session builder throws
    the missing-subject error, and [authenticate] fails for every request
    whose token verifies to such claims, with the 401 response that
    carries the missing-subject message when the base URL is a URL. *)
Theorem missing_subject_fails (decoded : Claims) (accessToken : string) :
  decoded !! "sub" = None \/ decoded !! "sub" = Some (JsString EmptyString) ->
  buildSession decoded accessToken
  = throw (newError InvalidTokenError MISSING_SUB)
  /\ (forall verify getToken request authHeader,
        authHeaderOf request = Some authHeader ->
        noBearer (Some authHeader) = false ->
        verify (accessTokenOf authHeader) = inr decoded ->
        (forall session,
            outcome (run verify getToken request) <> inr session)
        /\ (forall u,
              new_URL (getBaseUrl env_MCP_SERVER_URL PORT request) = Some u ->
              outcome (run verify getToken request)
              = inl (ThrownResponse
                       {| status := 401;
                          statusText := "Unauthorized";
                          responseHeaders :=
                            {[ "WWW-Authenticate" :=
                                 wwwAuthenticate MISSING_SUB (metadataUrl u) ]}
                       |}))).
Proof.
  intros Hsub. apply isNonEmptyString_absent in Hsub.
  assert (forall tok, buildSession decoded tok
                      = throw (newError InvalidTokenError MISSING_SUB)) as Hb.
  { intros tok. unfold buildSession. rewrite Hsub. reflexivity. }
  split; [apply Hb|].
  intros verify getToken request authHeader Hh Hnb Hv.
  rewrite (authenticate_with_bearer _ _ _ _ Hh Hnb), Hv, Hb. simpl.
  split.
  - intros session.
    destruct (authenticate_catch_throws
                (getBaseUrl env_MCP_SERVER_URL PORT request)
                (newError InvalidTokenError MISSING_SUB)) as [t ->].
    discriminate.
  - intros u Hu.
    apply (authenticate_catch_unauthorized _
             {| kind := InvalidTokenError; message := MISSING_SUB |} u);
      simpl; auto.
Qed.

End EntryPoint.

(** The bearer request, run with a [getToken] that returns and with one
    that throws. *)
Lemma authenticate_ignores_getToken_witness :
  authHeaderOf Sample.with_bearer = Some "Bearer  abc.def.ghi "
  /\ noBearer (Some "Bearer  abc.def.ghi ") = false
  /\ outcome (authenticate None "3001" string Sample.new_URL
                Sample.metadataUrl (Sample.accepts Sample.alice)
                Sample.getToken_ok Sample.with_bearer)
     = outcome (authenticate None "3001" string Sample.new_URL
                  Sample.metadataUrl (Sample.accepts Sample.alice)
                  Sample.getToken_throws Sample.with_bearer).
Proof.
  split; [reflexivity|]. split; [reflexivity|].
  apply (authenticate_ignores_getToken None "3001" string Sample.new_URL
           Sample.metadataUrl Sample.with_bearer "Bearer  abc.def.ghi ");
    reflexivity.
Defined.

(** Claims that are complete but for the subject. *)
Lemma missing_subject_fails_witness :
  Sample.no_subject !! "sub" = None
  /\ buildSession Sample.no_subject "abc.def.ghi"
     = throw (newError InvalidTokenError MISSING_SUB).
Proof.
  split; [reflexivity|].
  apply (missing_subject_fails None "3001" string Sample.new_URL
           Sample.metadataUrl Sample.no_subject "abc.def.ghi").
  left. reflexivity.
Defined.

(** ** The scope string *)

Lemma append_cons (c : ascii) (s r : string) :
  String c s +:+ r = String c (s +:+ r).
Proof. reflexivity. Qed.

Lemma append_empty_l (r : string) : EmptyString +:+ r = r.
Proof. reflexivity. Qed.

Lemma append_empty_r (t : string) : t +:+ EmptyString = t.
Proof.
  induction t as [|c t IH]; [reflexivity|].
  rewrite append_cons, IH. reflexivity.
Qed.

Lemma split_space_cons (s : string) :
  exists piece pieces, Js.split_space s = piece :: pieces.
Proof.
  induction s as [|c r (piece & pieces & IH)]; simpl; [eauto|].
  destruct (Ascii.eqb c " "); [eauto|]. rewrite IH. eauto.
Qed.

(** A run of code units without a space stays in the first piece. *)
Lemma split_space_spaceFree (t r : string) :
  spaceFree t = true ->
  Js.split_space (t +:+ r) =
  match Js.split_space r with
  | piece :: pieces => (t +:+ piece) :: pieces
  | [] => []
  end.
Proof.
  intros Ht. induction t as [|c t IH].
  - rewrite append_empty_l.
    destruct (split_space_cons r) as (piece & pieces & ->). reflexivity.
  - simpl in Ht. apply andb_true_iff in Ht as [Hc Ht].
    apply negb_true_iff in Hc. rewrite append_cons. simpl.
    rewrite Hc, (IH Ht).
    destruct (split_space_cons r) as (piece & pieces & ->). reflexivity.
Qed.

Lemma nonEmpty_append (t r : string) :
  Js.nonEmpty t = true -> Js.nonEmpty (t +:+ r) = true.
Proof. destruct t; [discriminate | reflexivity]. Qed.

Lemma scopesOf_space (r : string) :
  scopesOf (JsString (String " " r)) = scopesOf (JsString r).
Proof. reflexivity. Qed.

Lemma scopesOf_spaces (n : nat) (r : string) :
  scopesOf (JsString (spaces n +:+ r)) = scopesOf (JsString r).
Proof.
  induction n as [|n IH]; [reflexivity|].
  simpl spaces. rewrite append_cons, scopesOf_space. exact IH.
Qed.

Lemma scopesOf_only_spaces (n : nat) : scopesOf (JsString (spaces n)) = [].
Proof. induction n as [|n IH]; [reflexivity|]. exact IH. Qed.

Lemma scopesOf_token_end (t : string) (n : nat) :
  isToken t = true -> scopesOf (JsString (t +:+ spaces n)) = [t].
Proof.
  intros Ht. apply andb_true_iff in Ht as [Hne Hsf].
  unfold scopesOf. rewrite (split_space_spaceFree t _ Hsf).
  destruct n as [|n]; simpl; rewrite append_empty_r, Hne; [reflexivity|].
  f_equal. apply (scopesOf_only_spaces n).
Qed.

Lemma scopesOf_token_space (t r : string) :
  isToken t = true ->
  scopesOf (JsString (t +:+ String " " r)) = t :: scopesOf (JsString r).
Proof.
  intros Ht. apply andb_true_iff in Ht as [Hne Hsf].
  unfold scopesOf. rewrite (split_space_spaceFree t _ Hsf). simpl.
  rewrite append_empty_r, Hne. reflexivity.
Qed.

(** Reading back a laid-out scope string gives its tokens, in order,
    however many spaces surround them. *)
Lemma scopesOf_layout (tokens : list (string * nat)) (lead : nat) :
  Forall (fun t => isToken t = true) (tokens.*1) ->
  scopesOf (JsString (layout lead tokens)) = tokens.*1.
Proof.
  revert lead. induction tokens as [|[t gap] rest IH]; intros lead Hok.
  - simpl. rewrite append_empty_r. apply scopesOf_only_spaces.
  - simpl in Hok. apply Forall_cons in Hok as [Ht Hrest].
    simpl layout. rewrite scopesOf_spaces.
    destruct rest as [|next rest'].
    + apply scopesOf_token_end, Ht.
    + rewrite (scopesOf_token_space _ _ Ht). simpl fmap. f_equal.
      apply IH, Hrest.
Qed.

(** Every scope string is a layout of tokens. *)
Lemma layout_exists (s : string) :
  exists lead tokens,
    s = layout lead tokens /\ Forall (fun t => isToken t = true) (tokens.*1).
Proof.
  induction s as [|c r (lead & tokens & -> & Hok)].
  - exists O, []. split; [reflexivity | constructor].
  - destruct (Ascii.eqb c " ") eqn:Hc.
    + apply Ascii.eqb_eq in Hc as ->.
      exists (S lead), tokens. split; [|exact Hok].
      destruct tokens as [|[t gap] rest]; reflexivity.
    + assert (isToken (String c EmptyString) = true) as Hone.
      { unfold isToken. simpl. rewrite Hc. reflexivity. }
      destruct lead as [|lead].
      * destruct tokens as [|[t gap] rest].
        -- exists O, [(String c EmptyString, O)]. split; [reflexivity|].
           repeat constructor. exact Hone.
        -- exists O, ((String c t, gap) :: rest). split; [reflexivity|].
           simpl in *. apply Forall_cons in Hok as [Ht Hrest].
           constructor; [|exact Hrest].
           unfold isToken in *. simpl. rewrite Hc. simpl.
           apply andb_true_iff in Ht as [_ Ht]. exact Ht.
      * destruct tokens as [|next rest].
        -- exists O, [(String c EmptyString, S lead)].
           split; [|repeat constructor; exact Hone].
           simpl. rewrite append_empty_r. reflexivity.
        -- exists O, ((String c EmptyString, lead) :: next :: rest).
           split; [reflexivity|].
           simpl. constructor; [exact Hone | exact Hok].
Qed.

(** The scopes read from a string are tokens: non-empty and without a
    space. *)
Lemma scopesOf_tokens (s : string) :
  Forall (fun t => isToken t = true) (scopesOf (JsString s)).
Proof.
  destruct (layout_exists s) as (lead & tokens & -> & Hok).
  rewrite (scopesOf_layout _ _ Hok). exact Hok.
Qed.

(** ** The session that is built *)

(** The [extra] object of the session literal. *)
Lemma buildSession_ret_inv (decoded : Claims) (accessToken : string)
    (session : FastMCPAuthSession) :
  buildSession decoded accessToken = ret session ->
  isNonEmptyString (prop decoded "sub") = true
  /\ (isNonEmptyString (prop decoded "client_id") = true
      \/ isNonEmptyString (prop decoded "azp") = true)
  /\ token session = accessToken
  /\ clientId session
     = (if isNonEmptyString (prop decoded "client_id")
        then prop decoded "client_id" else prop decoded "azp")
  /\ scopes session = scopesOf (prop decoded "scope")
  /\ expiresAt session
     = (if truthy (prop decoded "exp") then Some (prop decoded "exp")
        else None)
  /\ extra session
     = spreadIf (isNonEmptyString (prop decoded "email")) "email"
                (prop decoded "email")
         (spreadIf (isNonEmptyString (prop decoded "name")) "name"
                   (prop decoded "name")
            (spreadIf (isNonEmptyString (prop decoded "azp")) "azp"
                      (prop decoded "azp")
               (spreadIf (isNonEmptyString (prop decoded "client_id"))
                         "client_id" (prop decoded "client_id")
                  {[ "sub" := prop decoded "sub" ]}))).
Proof.
  unfold buildSession.
  destruct (isNonEmptyString (prop decoded "sub")) eqn:Hsub; simpl;
    [|discriminate].
  destruct (isNonEmptyString (prop decoded "client_id")) eqn:Hcid.
  - rewrite (isNonEmptyString_truthy _ Hcid). simpl.
    intros [= <-]. simpl. auto 10.
  - destruct (isNonEmptyString (prop decoded "azp")) eqn:Hazp.
    + rewrite (isNonEmptyString_truthy _ Hazp). simpl.
      intros [= <-]. simpl. auto 10.
    + simpl. discriminate.
Qed.

Lemma extra_lookup (decoded : Claims) (k : string) :
  isNonEmptyString (prop decoded "sub") = true ->
  spreadIf (isNonEmptyString (prop decoded "email")) "email"
           (prop decoded "email")
    (spreadIf (isNonEmptyString (prop decoded "name")) "name"
              (prop decoded "name")
       (spreadIf (isNonEmptyString (prop decoded "azp")) "azp"
                 (prop decoded "azp")
          (spreadIf (isNonEmptyString (prop decoded "client_id"))
                    "client_id" (prop decoded "client_id")
             {[ "sub" := prop decoded "sub" ]}))) !! k
  = if bool_decide (k ∈ extraKeys) && isNonEmptyString (prop decoded k)
    then Some (prop decoded k) else None.
Proof.
  intros Hsub. unfold spreadIf, extraKeys.
  destruct (isNonEmptyString (prop decoded "email")) eqn:He,
           (isNonEmptyString (prop decoded "name")) eqn:Hn,
           (isNonEmptyString (prop decoded "azp")) eqn:Ha,
           (isNonEmptyString (prop decoded "client_id")) eqn:Hc;
    (destruct (decide (k = "email")) as [->|Ne];
       [rewrite He; lookup_literal|]);
    (destruct (decide (k = "name")) as [->|Nn];
       [rewrite Hn; lookup_literal|]);
    (destruct (decide (k = "azp")) as [->|Na];
       [rewrite Ha; lookup_literal|]);
    (destruct (decide (k = "client_id")) as [->|Nc];
       [rewrite Hc; lookup_literal|]);
    (destruct (decide (k = "sub")) as [->|Ns];
       [rewrite Hsub; lookup_literal|]);
    (rewrite bool_decide_eq_false_2
       by (rewrite !elem_of_cons, elem_of_nil; tauto));
    lookup_literal.
Qed.

(** C4, as amended.  The session's scopes are the tokens of the
    space-delimited [scope] string, U+0020 being the one delimiter: every
    such string is a layout of non-empty, space-free tokens with any
    number of U+0020 before, between (at least one) and after them, and
    the session holds exactly those tokens.  When [scope] is absent or not
    a string the scopes are empty, and the session is built all the same.
    The string made of [tool:whoami] and [tool:greet], in either order and
    with any extra spaces, gives exactly these two scopes. *)
Theorem scopes_are_the_tokens (decoded : Claims) (accessToken : string) :
  (forall session,
      buildSession decoded accessToken = ret session ->
      match decoded !! "scope" with
      | Some (JsString s) =>
          (exists lead tokens,
              s = layout lead tokens
              /\ Forall (fun t => isToken t = true) (tokens.*1))
          /\ (forall lead tokens,
                s = layout lead tokens ->
                Forall (fun t => isToken t = true) (tokens.*1) ->
                scopes session = tokens.*1)
      | _ => scopes session = []
      end)
  /\ (isNonEmptyString (prop decoded "sub") = true ->
      isNonEmptyString (prop decoded "client_id") = true
      \/ isNonEmptyString (prop decoded "azp") = true ->
      exists session, buildSession decoded accessToken = ret session)
  /\ (forall session lead gap1 gap2 (swap : bool),
        buildSession decoded accessToken = ret session ->
        decoded !! "scope"
        = Some (JsString
                  (layout lead
                     (if swap
                      then [("tool:greet", gap1); ("tool:whoami", gap2)]
                      else [("tool:whoami", gap1); ("tool:greet", gap2)]))) ->
        forall scope,
          scope ∈ scopes session
          <-> scope = "tool:whoami" \/ scope = "tool:greet").
Proof.
  split; [|split].
  - intros session Hbuild.
    apply buildSession_ret_inv in Hbuild as (_ & _ & _ & _ & Hs & _).
    rewrite Hs. unfold prop.
    destruct (decoded !! "scope") as [[| | | |s|]|]; try reflexivity.
    simpl default. split; [apply layout_exists|].
    intros lead tokens -> Hok. apply scopesOf_layout, Hok.
  - intros Hsub Hclient.
    destruct (buildSession_cases decoded accessToken)
      as [(H & _) | [(_ & H1 & H2 & _) | (_ & _ & session & H & _)]].
    + congruence.
    + destruct Hclient; congruence.
    + eauto.
  - intros session lead gap1 gap2 swap Hbuild Hscope scope.
    apply buildSession_ret_inv in Hbuild as (_ & _ & _ & _ & Hs & _).
    rewrite Hs. unfold prop. rewrite Hscope. simpl default.
    destruct swap.
    + rewrite scopesOf_layout by (repeat constructor).
      simpl. rewrite !elem_of_cons, elem_of_nil. tauto.
    + rewrite scopesOf_layout by (repeat constructor).
      simpl. rewrite !elem_of_cons, elem_of_nil. tauto.
Qed.

(** The sample claims carry [" tool:whoami  tool:greet "]. *)
Example scopes_of_alice :
  exists session,
    buildSession Sample.alice "abc.def.ghi" = ret session
    /\ scopes session = ["tool:whoami"; "tool:greet"].
Proof. eexists. split; reflexivity. Qed.

(** C4, as stated, fails on a scope string with other white space than
    U+0020: with a tab between two spaces the session holds three scopes,
    the tab being one of them, and not the set of the two tool scopes. *)
Lemma scopes_whitespace_counterexample :
  Js.isWhiteSpace "009" = true
  /\ Probe.tabbed_scope !! "scope"
     = Some (JsString ("tool:whoami " +:+ String "009" " tool:greet"))
  /\ exists session,
       buildSession Probe.tabbed_scope "abc.def.ghi" = ret session
       /\ scopes session
          = ["tool:whoami"; String "009" EmptyString; "tool:greet"].
Proof.
  split; [reflexivity|]. split; [reflexivity|].
  eexists. split; reflexivity.
Qed.

(** A tab is not a delimiter: only U+0020 separates scopes. *)
Example scopes_tab_is_no_delimiter :
  scopesOf (JsString ("tool:whoami" +:+ String "009" "tool:greet"))
  = ["tool:whoami" +:+ String "009" "tool:greet"].
Proof. reflexivity. Qed.

(** C6, as amended.  For claims whose [sub] is a non-empty string: the
    session's client identity is [client_id] when that is a non-empty
    string; otherwise it is [azp] when that is a non-empty string; and
    when neither is, the builder throws the missing-client-identity
    error. *)
Theorem client_identity_when_subject_present (decoded : Claims)
    (accessToken : string) :
  isNonEmptyString (prop decoded "sub") = true ->
  (isNonEmptyString (prop decoded "client_id") = true ->
   exists session,
     buildSession decoded accessToken = ret session
     /\ clientId session = prop decoded "client_id")
  /\ (isNonEmptyString (prop decoded "client_id") = false ->
      isNonEmptyString (prop decoded "azp") = true ->
      exists session,
        buildSession decoded accessToken = ret session
        /\ clientId session = prop decoded "azp")
  /\ (isNonEmptyString (prop decoded "client_id") = false ->
      isNonEmptyString (prop decoded "azp") = false ->
      buildSession decoded accessToken
      = throw (newError InvalidTokenError MISSING_CLIENT)).
Proof.
  intros Hsub.
  destruct (buildSession_cases decoded accessToken)
    as [(H & _) | [(_ & H1 & H2 & H)
                  | (_ & Hclient & session & H & _ & Hc & _)]].
  - congruence.
  - repeat split; intros; congruence.
  - repeat split.
    + intros Hcid. exists session. rewrite Hcid in Hc. auto.
    + intros Hcid Hazp. exists session. rewrite Hcid in Hc. auto.
    + intros Hcid Hazp. destruct Hclient; congruence.
Qed.

(** The sample claims name the client by [azp] only. *)
Lemma client_identity_when_subject_present_witness :
  isNonEmptyString (prop Sample.alice "sub") = true
  /\ isNonEmptyString (prop Sample.alice "client_id") = false
  /\ isNonEmptyString (prop Sample.alice "azp") = true
  /\ exists session,
       buildSession Sample.alice "abc.def.ghi" = ret session
       /\ clientId session = JsString "app1".
Proof.
  repeat (split; [reflexivity|]).
  apply (client_identity_when_subject_present Sample.alice "abc.def.ghi");
    reflexivity.
Defined.

(** C6, as stated, fails on claims that lack the subject as well as the
    client identity: the rule of the specification answers with the
    missing-client-identity error, the program with the missing-subject
    error. *)
Lemma client_identity_counterexample :
  clientIdentity_spec Sample.only_scope
  = inl (newError InvalidTokenError MISSING_CLIENT)
  /\ buildSession Sample.only_scope "abc.def.ghi"
     = throw (newError InvalidTokenError MISSING_SUB)
  /\ buildSession Sample.only_scope "abc.def.ghi"
     <> throw (newError InvalidTokenError MISSING_CLIENT).
Proof. repeat split. discriminate. Qed.

(** In a session that is built, the expiry is the [exp] claim, unchanged,
    when that claim is truthy, and is left out otherwise; and [extra]
    holds, of [sub], [client_id], [azp], [name] and [email], exactly those
    that are non-empty strings in the claims, each with the claim's own
    value. *)
Lemma expiry_and_extra_copied (decoded : Claims) (accessToken : string)
    (session : FastMCPAuthSession) :
  buildSession decoded accessToken = ret session ->
  (forall v, decoded !! "exp" = Some v -> truthy v = true ->
             expiresAt session = Some v)
  /\ (truthy (prop decoded "exp") = false -> expiresAt session = None)
  /\ (forall k v,
        extra session !! k = Some v ->
        k ∈ extraKeys /\ decoded !! k = Some v
        /\ isNonEmptyString v = true)
  /\ (forall k,
        k ∈ extraKeys -> isNonEmptyString (prop decoded k) = true ->
        extra session !! k = Some (prop decoded k))
  /\ (forall k,
        decoded !! k = None \/ decoded !! k = Some (JsString EmptyString) ->
        extra session !! k = None).
Proof.
  intros Hbuild.
  apply buildSession_ret_inv in Hbuild
    as (Hsub & _ & _ & _ & _ & Hexp & Hextra).
  assert (forall k, extra session !! k
                    = if bool_decide (k ∈ extraKeys)
                         && isNonEmptyString (prop decoded k)
                      then Some (prop decoded k) else None) as Hlook.
  { intros k. rewrite Hextra. apply extra_lookup, Hsub. }
  split; [|split; [|split; [|split]]].
  - intros v Hv Ht. rewrite Hexp. unfold prop. rewrite Hv. simpl.
    rewrite Ht. reflexivity.
  - intros Hf. rewrite Hexp, Hf. reflexivity.
  - intros k v Hk. rewrite Hlook in Hk.
    destruct (bool_decide (k ∈ extraKeys)) eqn:Hin; [|discriminate].
    apply bool_decide_eq_true_1 in Hin. simpl in Hk.
    destruct (isNonEmptyString (prop decoded k)) eqn:Hv; [|discriminate].
    injection Hk as <-. repeat split; [exact Hin | | exact Hv].
    unfold prop in *. destruct (decoded !! k); [reflexivity | discriminate].
  - intros k Hk Hv. rewrite Hlook, Hv.
    rewrite bool_decide_eq_true_2 by exact Hk. reflexivity.
  - intros k Hk. rewrite Hlook.
    rewrite (isNonEmptyString_absent _ _ Hk), andb_false_r. reflexivity.
Qed.

(** C8.  In a session built from verified claims, the expiry, when the
    claims have one, is copied unchanged, and a session built from claims
    without [exp] has none; and [extra] holds, of [sub], [client_id],
    [azp], [name] and [email], exactly those that are non-empty strings in
    the claims, each with the claim's own value: an attribute that is
    absent or empty is left out, never given a placeholder. *)
Theorem expiry_and_extra_of_verified_claims (decoded : Claims)
    (accessToken : string) (session : FastMCPAuthSession) :
  expiryValidated decoded ->
  buildSession decoded accessToken = ret session ->
  (forall v, decoded !! "exp" = Some v -> expiresAt session = Some v)
  /\ (decoded !! "exp" = None -> expiresAt session = None)
  /\ (forall k v,
        extra session !! k = Some v ->
        k ∈ extraKeys /\ decoded !! k = Some v
        /\ isNonEmptyString v = true)
  /\ (forall k,
        k ∈ extraKeys -> isNonEmptyString (prop decoded k) = true ->
        extra session !! k = Some (prop decoded k))
  /\ (forall k,
        decoded !! k = None \/ decoded !! k = Some (JsString EmptyString) ->
        extra session !! k = None).
Proof.
  intros Hexp Hbuild.
  destruct (expiry_and_extra_copied decoded accessToken session Hbuild)
    as (Hcopy & Hnone & Hextra).
  split; [|split; [|exact Hextra]].
  - intros v Hv. apply (Hcopy v Hv).
    destruct (Hexp v Hv) as (n & -> & Hn). simpl.
    apply negb_true_iff, Z.eqb_neq. lia.
  - intros Hv. apply Hnone. unfold prop. rewrite Hv. reflexivity.
Qed.

(** The sample claims: [exp] is copied, the empty [email] is left out. *)
Lemma expiry_and_extra_of_verified_claims_witness :
  expiryValidated Sample.alice
  /\ buildSession Sample.alice "abc.def.ghi" = ret Sample.alice_session
  /\ Sample.alice !! "exp" = Some (JsNumber 1900000000)
  /\ expiresAt Sample.alice_session = Some (JsNumber 1900000000).
Proof.
  assert (expiryValidated Sample.alice) as Hexp.
  { intros v Hv. vm_compute in Hv. injection Hv as <-.
    exists 1900000000. split; [reflexivity | lia]. }
  split; [exact Hexp|]. split; [reflexivity|]. split; [reflexivity|].
  apply (expiry_and_extra_of_verified_claims Sample.alice "abc.def.ghi"
           Sample.alice_session Hexp); reflexivity.
Defined.

(** ** The effective base URL *)

(** When no server URL is configured, the constant [MCP_SERVER_URL] does
    not start with [https]: the scheme the program falls back on is
    [http]. *)
Lemma default_scheme_is_http (env_MCP_SERVER_URL : option string)
    (PORT : string) :
  explicitlyConfigured env_MCP_SERVER_URL = false ->
  Js.startsWith (MCP_SERVER_URL env_MCP_SERVER_URL PORT) "https" = false.
Proof.
  unfold explicitlyConfigured, MCP_SERVER_URL.
  destruct env_MCP_SERVER_URL as [[|c v]|]; simpl;
    [reflexivity | discriminate | reflexivity].
Qed.

(** C7, as amended.  The effective base URL is the configured server URL
    when one is configured (set and not empty).  Otherwise, when [Host]
    is present and not empty, or failing that [X-Forwarded-Host] is, it is
    [scheme://host], where the scheme is [https] when [X-Forwarded-Proto]
    is exactly [https] and is [http] in every other case: when that header
    is exactly [http], and when it is absent or holds anything else, since
    the default scheme is then that of the default server URL.  Otherwise
    it is the constant [MCP_SERVER_URL], which is [http://localhost:PORT]
    when no server URL is set. *)
Theorem getBaseUrl_cases (env_MCP_SERVER_URL : option string) (PORT : string)
    (request : IncomingMessage) :
  (forall v,
      env_MCP_SERVER_URL = Some v -> v <> EmptyString ->
      getBaseUrl env_MCP_SERVER_URL PORT request = v)
  /\ (explicitlyConfigured env_MCP_SERVER_URL = false ->
      forall h,
        (headers request !! "host" = Some h /\ headerTruthy (Some h) = true)
        \/ (headerTruthy (headers request !! "host") = false
            /\ headers request !! "x-forwarded-host" = Some h
            /\ headerTruthy (Some h) = true) ->
        getBaseUrl env_MCP_SERVER_URL PORT request
        = (if headerIs (headers request !! "x-forwarded-proto") "https"
           then "https" else "http")
          +:+ "://" +:+ headerText h)
  /\ (explicitlyConfigured env_MCP_SERVER_URL = false ->
      headerTruthy (headers request !! "host") = false ->
      headerTruthy (headers request !! "x-forwarded-host") = false ->
      getBaseUrl env_MCP_SERVER_URL PORT request
      = MCP_SERVER_URL env_MCP_SERVER_URL PORT)
  /\ (env_MCP_SERVER_URL = None ->
      MCP_SERVER_URL env_MCP_SERVER_URL PORT = "http://localhost:" +:+ PORT).
Proof.
  split; [|split; [|split]].
  - intros v -> Hv. unfold getBaseUrl, explicitlyConfigured, MCP_SERVER_URL.
    destruct v; [congruence | reflexivity].
  - intros Hcfg h Hhost. unfold getBaseUrl. rewrite Hcfg.
    rewrite (default_scheme_is_http _ PORT Hcfg).
    assert (headerOr (headers request !! "host")
                     (headers request !! "x-forwarded-host") = Some h
            /\ headerTruthy (Some h) = true) as [-> Ht].
    { unfold headerOr.
      destruct Hhost as [[Hh Ht] | (Hf & Hx & Ht)].
      - rewrite Hh, Ht. auto.
      - rewrite Hf, Hx. auto. }
    rewrite Ht.
    destruct (headerIs (headers request !! "x-forwarded-proto") "https");
      [reflexivity|].
    destruct (headerIs (headers request !! "x-forwarded-proto") "http");
      reflexivity.
  - intros Hcfg Hhost Hx. unfold getBaseUrl. rewrite Hcfg.
    unfold headerOr. rewrite Hhost.
    destruct (headers request !! "x-forwarded-host") as [h|];
      [rewrite Hx|]; reflexivity.
  - intros ->. reflexivity.
Qed.

Example getBaseUrl_configured :
  getBaseUrl (Some "https://abc123.ngrok.io") "3001" Sample.anonymous
  = "https://abc123.ngrok.io".
Proof. reflexivity. Qed.

Example getBaseUrl_from_host :
  getBaseUrl None "3001" Sample.anonymous = "http://mcp.example.com".
Proof. reflexivity. Qed.

Example getBaseUrl_fallback :
  getBaseUrl None "3001" {| headers := ∅; url := None |}
  = "http://localhost:3001".
Proof. reflexivity. Qed.

(** C7, as stated, fails on a request whose [X-Forwarded-Proto] is
    neither [https] nor [http]: the specification takes the scheme from
    the header, the program falls back on [http]. *)
Lemma getBaseUrl_counterexample :
  getBaseUrl None "3001" Sample.forwarded_wss = "http://mcp.example.com"
  /\ getBaseUrl_spec None "3001" Sample.forwarded_wss
     = "wss://mcp.example.com".
Proof. split; reflexivity. Qed.

(** ** Failures and the responses thrown for them *)

Section Challenge.

Context (env_MCP_SERVER_URL : option string) (PORT : string).
Context (URL : Type) (new_URL : string -> option URL).
Context (metadataUrl : URL -> string).

Local Abbreviation run verify getToken :=
  (authenticate env_MCP_SERVER_URL PORT URL new_URL metadataUrl
                verify getToken).
Local Abbreviation baseUrl request :=
  (getBaseUrl env_MCP_SERVER_URL PORT request).





(** C3, where it fails.  A request without credentials whose effective
    base URL is not a URL gets no response at all: the [catch] block
    throws the [TypeError] of [new URL], neither a 401 nor any other
    response. *)
Theorem no_credential_invalid_base_url verify getToken
    (request : IncomingMessage) :
  noBearer (authHeaderOf request) = true ->
  new_URL (baseUrl request) = None ->
  outcome (run verify getToken request)
  = inl (newError TypeError "Invalid URL").
Proof.
  intros Hb Hu.
  rewrite outcome_authenticate, outcome_authenticate_try, Hb.
  apply (authenticate_catch_invalid_url _ _ _ _
           {| kind := InvalidRequestError; message := NO_BEARER |});
    simpl; auto.
Qed.


(** The console after a [try]/[catch]: the lines of the body, then those
    of the handler when the body threw. *)
Lemma console_try_catch {A} (m : M A) (h : Thrown -> M A) :
  fst (try_catch m h) =
  fst m ++ match outcome m with
           | inl t => fst (h t)
           | inr _ => []
           end.
Proof.
  destruct m as [out [t|a]]; simpl.
  - destruct (h t); reflexivity.
  - rewrite app_nil_r. reflexivity.
Qed.

Lemma console_bind {A B} (m : M A) (k : A -> M B) :
  fst (bind m k) =
  fst m ++ match outcome m with
           | inl _ => []
           | inr a => fst (k a)
           end.
Proof.
  destruct m as [out [t|a]]; simpl.
  - rewrite app_nil_r. reflexivity.
  - destruct (k a); reflexivity.
Qed.

(** The [catch] block starts by writing what it caught. *)
Lemma console_authenticate_catch (base : string) (error : Thrown) :
  exists rest,
    fst (authenticate_catch URL new_URL metadataUrl base error)
    = console_error error :: rest.
Proof.
  unfold authenticate_catch. rewrite console_bind. simpl. eauto.
Qed.

(** The body of the [try] never writes with [console.error]. *)
Lemma console_authenticate_try verify getToken (request : IncomingMessage)
    (what : Thrown) :
  console_error what ∉ fst (authenticate_try verify getToken request).
Proof.
  unfold authenticate_try.
  destruct (noBearer (authHeaderOf request)).
  - rewrite console_bind.
    destruct (Js.includes _ _); simpl;
      rewrite !elem_of_cons, elem_of_nil; intros [H|[]]; discriminate.
  - cbv zeta. rewrite console_bind, getToken_swallowed, console_bind.
    assert (forall decoded tok, fst (buildSession decoded tok) = []) as Hb.
    { intros decoded tok.
      destruct (buildSession_cases decoded tok)
        as [(_ & ->) | [(_ & _ & _ & ->) | (_ & _ & s & -> & _)]];
        reflexivity. }
    destruct (verify _) as [e|decoded]; simpl; rewrite ?Hb, ?app_nil_r;
      destruct (getToken (headers request)) as [[[] msg]|tok]; simpl;
      rewrite ?elem_of_cons, elem_of_nil; try tauto;
      intros [H|[]]; discriminate.
Qed.

(** Failures are written to the console, successes are not: when
    [authenticate] throws, the console holds a [console.error] line with
    the error the body of the [try] threw; when it returns a session, the
    console holds no [console.error] line. *)
Theorem failure_is_logged verify getToken (request : IncomingMessage) :
  (forall t,
      outcome (run verify getToken request) = inl t ->
      exists error,
        outcome (authenticate_try verify getToken request) = inl error
        /\ console_error error ∈ fst (run verify getToken request))
  /\ (forall session what,
        outcome (run verify getToken request) = inr session ->
        console_error what ∉ fst (run verify getToken request)).
Proof.
  unfold authenticate. cbv zeta. rewrite console_try_catch.
  split.
  - intros t Ht. rewrite outcome_try_catch in Ht.
    destruct (outcome (authenticate_try verify getToken request))
      as [error|s]; [|discriminate].
    exists error. split; [reflexivity|].
    destruct (console_authenticate_catch (baseUrl request) error)
      as [rest ->].
    apply elem_of_app. right. apply elem_of_cons. left. reflexivity.
  - intros session what Hs. rewrite outcome_try_catch in Hs.
    destruct (outcome (authenticate_try verify getToken request))
      as [error|s].
    + destruct (authenticate_catch_throws _ new_URL metadataUrl
                  (baseUrl request) error) as [t Ht].
      rewrite Ht in Hs. discriminate.
    + rewrite app_nil_r. apply console_authenticate_try.
Qed.

End Challenge.



(** A request without credentials whose [Host] is no host name. *)
Lemma no_credential_invalid_base_url_witness :
  noBearer (authHeaderOf Sample.bad_host) = true
  /\ getBaseUrl None "3001" Sample.bad_host = "http://bad host"
  /\ Sample.new_URL "http://bad host" = None
  /\ outcome (authenticate None "3001" string Sample.new_URL
                Sample.metadataUrl (Sample.accepts Sample.alice)
                Sample.getToken_ok Sample.bad_host)
     = inl (newError TypeError "Invalid URL").
Proof.
  repeat (split; [reflexivity|]).
  apply (no_credential_invalid_base_url None "3001" string Sample.new_URL
           Sample.metadataUrl (Sample.accepts Sample.alice)
           Sample.getToken_ok Sample.bad_host); reflexivity.
Defined.

(** ** The program on the sample requests *)

Example authenticate_alice :
  outcome (authenticate None "3001" string Sample.new_URL
             Sample.metadataUrl (Sample.accepts Sample.alice)
             Sample.getToken_throws Sample.with_bearer)
  = inr Sample.alice_session.
Proof. reflexivity. Qed.

Example authenticate_expired :
  outcome (authenticate None "3001" string Sample.new_URL
             Sample.metadataUrl
             (Sample.rejects {| kind := VerifyAccessTokenError;
                                message := "token expired" |})
             Sample.getToken_ok Sample.with_bearer)
  = inl (ThrownResponse
           (unauthorized "token expired"
              "http://mcp.example.com/.well-known/oauth-protected-resource")).
Proof. reflexivity. Qed.

Example authenticate_verifier_breaks :
  outcome (authenticate None "3001" string Sample.new_URL
             Sample.metadataUrl
             (Sample.rejects {| kind := OtherError;
                                message := "fetch failed" |})
             Sample.getToken_ok Sample.with_bearer)
  = inl (ThrownResponse internalServerError).
Proof. reflexivity. Qed.

(** The scope gate on the session of the sample claims. *)
Example gate_on_alice :
  hasAllScopes ["tool:whoami"] Sample.alice_session = true
  /\ hasAllScopes ["tool:whoami"; "tool:admin"] Sample.alice_session = false
  /\ hasAllScopes [] Sample.alice_session = true.
Proof. repeat split. Qed.

(** ** Trimming and the token cut out of the header *)

Lemma append_assoc (a b c : string) : (a +:+ b) +:+ c = a +:+ (b +:+ c).
Proof.
  induction a as [|x a IH]; [reflexivity|].
  rewrite !append_cons, IH. reflexivity.
Qed.

Lemma rev_app_append (s1 s2 : string) :
  String.rev_app s1 s2 = String.rev s1 +:+ s2.
Proof.
  unfold String.rev. revert s2.
  induction s1 as [|c s1 IH]; intros s2; [reflexivity|].
  simpl. rewrite (IH (String c s2)), (IH (String c EmptyString)).
  rewrite append_assoc. reflexivity.
Qed.

Lemma rev_cons (c : ascii) (s : string) :
  String.rev (String c s) = String.rev s +:+ String c EmptyString.
Proof. unfold String.rev at 1. simpl. apply rev_app_append. Qed.

Lemma rev_append (s1 s2 : string) :
  String.rev (s1 +:+ s2) = String.rev s2 +:+ String.rev s1.
Proof.
  induction s1 as [|c s1 IH].
  - rewrite append_empty_l, append_empty_r. reflexivity.
  - rewrite append_cons, !rev_cons, IH, append_assoc. reflexivity.
Qed.

Lemma rev_involutive (s : string) : String.rev (String.rev s) = s.
Proof.
  induction s as [|c s IH]; [reflexivity|].
  rewrite rev_cons, rev_append, IH. reflexivity.
Qed.

Lemma allWhite_append (a b : string) :
  allWhite (a +:+ b) = allWhite a && allWhite b.
Proof.
  induction a as [|c a IH]; [reflexivity|].
  rewrite append_cons. simpl. rewrite IH, andb_assoc. reflexivity.
Qed.

Lemma allWhite_rev (pad : string) : allWhite (String.rev pad) = allWhite pad.
Proof.
  induction pad as [|c pad IH]; [reflexivity|].
  rewrite rev_cons, allWhite_append, IH. simpl.
  rewrite andb_true_r, andb_comm. reflexivity.
Qed.

Lemma trimStart_pad (pad s : string) :
  allWhite pad = true -> Js.trimStart (pad +:+ s) = Js.trimStart s.
Proof.
  induction pad as [|c pad IH]; intros Hw; [reflexivity|].
  simpl in Hw. apply andb_true_iff in Hw as [Hc Hw].
  rewrite append_cons. simpl. rewrite Hc. apply IH, Hw.
Qed.

Lemma trimStart_clean (s : string) :
  startsClean s = true -> Js.trimStart s = s.
Proof.
  destruct s as [|c s]; [reflexivity|]. simpl.
  intros Hc. apply negb_true_iff in Hc. rewrite Hc. reflexivity.
Qed.

(** What [trimStart] removes is white space, and what it leaves does not
    start with any. *)
Lemma trimStart_split (s : string) :
  exists pad,
    allWhite pad = true /\ s = pad +:+ Js.trimStart s
    /\ startsClean (Js.trimStart s) = true.
Proof.
  induction s as [|c s (pad & Hw & Hs & Hc)].
  - exists EmptyString. auto.
  - simpl. destruct (Js.isWhiteSpace c) eqn:Hws.
    + exists (String c pad). simpl. rewrite Hws, Hw, append_cons, <- Hs. auto.
    + exists EmptyString. simpl. rewrite Hws. auto.
Qed.

Lemma trimEnd_pad (s pad : string) :
  allWhite pad = true -> Js.trimEnd (s +:+ pad) = Js.trimEnd s.
Proof.
  intros Hw. unfold Js.trimEnd.
  rewrite rev_append, trimStart_pad by (rewrite allWhite_rev; exact Hw).
  reflexivity.
Qed.

Lemma trimEnd_clean (s : string) : endsClean s = true -> Js.trimEnd s = s.
Proof.
  intros Hc. unfold Js.trimEnd.
  rewrite (trimStart_clean _ Hc). apply rev_involutive.
Qed.

(** Trimming a text padded with white space on both sides gives the text
    back, when the text itself neither starts nor ends with white space. *)
Lemma trim_padded (pad1 tok pad2 : string) :
  allWhite pad1 = true -> allWhite pad2 = true ->
  startsClean tok = true -> endsClean tok = true ->
  Js.trim (pad1 +:+ tok +:+ pad2) = tok.
Proof.
  intros Hw1 Hw2 Hs He. unfold Js.trim.
  rewrite (trimStart_pad _ _ Hw1).
  destruct tok as [|c tok].
  - rewrite append_empty_l.
    destruct (trimStart_split pad2) as (pad & Hw & Hsplit & Hc).
    assert (Js.trimStart pad2 = EmptyString) as ->; [|reflexivity].
    rewrite Hsplit, allWhite_append in Hw2.
    apply andb_true_iff in Hw2 as [_ Hw2].
    destruct (Js.trimStart pad2) as [|x r]; [reflexivity|].
    simpl in Hw2, Hc. apply andb_true_iff in Hw2 as [Hx _].
    rewrite Hx in Hc. discriminate.
  - rewrite (trimStart_clean (String c tok +:+ pad2)) by exact Hs.
    rewrite (trimEnd_pad _ _ Hw2). apply trimEnd_clean, He.
Qed.

(** A trimmed text neither starts nor ends with white space. *)
Lemma trim_clean (s : string) :
  startsClean (Js.trim s) = true /\ endsClean (Js.trim s) = true.
Proof.
  unfold Js.trim, Js.trimEnd.
  destruct (trimStart_split s) as (_ & _ & _ & Hs).
  destruct (trimStart_split (String.rev (Js.trimStart s)))
    as (pad & Hw & Hsplit & Hc).
  split.
  - apply (f_equal String.rev) in Hsplit.
    rewrite rev_involutive, rev_append in Hsplit.
    rewrite Hsplit in Hs.
    destruct (String.rev (Js.trimStart (String.rev (Js.trimStart s))));
      [reflexivity | exact Hs].
  - unfold endsClean. rewrite rev_involutive. exact Hc.
Qed.

Lemma bearer_round_trip_tail (pad1 tok pad2 : string) :
  allWhite pad1 = true -> allWhite pad2 = true ->
  startsClean tok = true -> endsClean tok = true ->
  accessTokenOf ("Bearer " +:+ pad1 +:+ tok +:+ pad2) = tok.
Proof.
  intros Hw1 Hw2 Hs He. unfold accessTokenOf.
  change (Js.substring 7 ("Bearer " +:+ pad1 +:+ tok +:+ pad2))
    with (pad1 +:+ tok +:+ pad2).
  apply trim_padded; assumption.
Qed.

(** The round trip of a bearer credential: from the header made of the
    scheme, a space, and the token with any white space around it, the
    program cuts out exactly the token, provided the token itself neither
    starts nor ends with white space (as no JWT does). *)
Theorem bearer_round_trip (pad1 tok pad2 : string) :
  allWhite pad1 = true -> allWhite pad2 = true ->
  startsClean tok = true -> endsClean tok = true ->
  noBearer (Some ("Bearer " +:+ pad1 +:+ tok +:+ pad2)) = false
  /\ accessTokenOf ("Bearer " +:+ pad1 +:+ tok +:+ pad2) = tok.
Proof.
  intros Hw1 Hw2 Hs He. split.
  { generalize (pad1 +:+ tok +:+ pad2). intros [|c rest]; reflexivity. }
  apply bearer_round_trip_tail; assumption.
Qed.

Lemma bearer_round_trip_witness :
  allWhite " " = true /\ startsClean "abc.def.ghi" = true
  /\ endsClean "abc.def.ghi" = true
  /\ accessTokenOf "Bearer  abc.def.ghi " = "abc.def.ghi".
Proof.
  repeat (split; [reflexivity|]).
  apply (bearer_round_trip " " "abc.def.ghi" " "); reflexivity.
Defined.

(** Whatever the header, the token handed to the verifier neither starts
    nor ends with white space, and trimming it again changes nothing. *)
Theorem accessToken_is_trimmed (authHeader : string) :
  startsClean (accessTokenOf authHeader) = true
  /\ endsClean (accessTokenOf authHeader) = true
  /\ Js.trim (accessTokenOf authHeader) = accessTokenOf authHeader.
Proof.
  unfold accessTokenOf.
  destruct (trim_clean (Js.substring 7 authHeader)) as [Hs He].
  split; [exact Hs|]. split; [exact He|].
  rewrite <- (append_empty_r (Js.trim (Js.substring 7 authHeader))) at 1.
  apply (trim_padded EmptyString _ EmptyString); auto.
Qed.

(** ** The entry point as a whole *)

Section Composition.

Context (env_MCP_SERVER_URL : option string) (PORT : string).
Context (URL : Type) (new_URL : string -> option URL).
Context (metadataUrl : URL -> string).

Local Abbreviation run verify getToken :=
  (authenticate env_MCP_SERVER_URL PORT URL new_URL metadataUrl
                verify getToken).
Local Abbreviation baseUrl request :=
  (getBaseUrl env_MCP_SERVER_URL PORT request).

(** How [authenticate] settles, in terms of the header and the base URL
    alone. *)
Lemma outcome_by_header_and_base verify getToken (request : IncomingMessage) :
  outcome (run verify getToken request) =
  match
    (if noBearer (authHeaderOf request) then
       inl (newError InvalidRequestError NO_BEARER)
     else
       match verify (accessTokenOf (default EmptyString
                                      (authHeaderOf request))) with
       | inl e => inl (ThrownError e)
       | inr decoded =>
           outcome (buildSession decoded
                      (accessTokenOf (default EmptyString
                                        (authHeaderOf request))))
       end)
  with
  | inl t =>
      outcome (authenticate_catch URL new_URL metadataUrl (baseUrl request) t)
  | inr session => inr session
  end.
Proof.
  rewrite outcome_authenticate, outcome_authenticate_try. reflexivity.
Qed.

(** Of a request, only the [Authorization] header and the effective base
    URL bear on how [authenticate] settles: two requests that agree on
    both settle alike, whatever their URLs and other headers (and whatever
    [getToken] does).  With a configured server URL the [Authorization]
    header alone decides. *)
Theorem outcome_depends_on_credential_and_base_url verify getToken1 getToken2
    (request1 request2 : IncomingMessage) :
  authHeaderOf request1 = authHeaderOf request2 ->
  (baseUrl request1 = baseUrl request2 ->
   outcome (run verify getToken1 request1)
   = outcome (run verify getToken2 request2))
  /\ (explicitlyConfigured env_MCP_SERVER_URL = true ->
      outcome (run verify getToken1 request1)
      = outcome (run verify getToken2 request2)).
Proof.
  intros Hh.
  assert (baseUrl request1 = baseUrl request2 ->
          outcome (run verify getToken1 request1)
          = outcome (run verify getToken2 request2)) as Hsame.
  { intros Hb. rewrite !outcome_by_header_and_base, Hh, Hb. reflexivity. }
  split; [exact Hsame|].
  intros Hcfg. apply Hsame. unfold getBaseUrl. rewrite Hcfg. reflexivity.
Qed.

(** Where the discovery URL of the challenge comes from.  With a
    configured server URL, every request without credentials gets the 401
    response whose [resource_metadata] is computed from that URL, whatever
    headers the request carries.  Without one, a request without
    credentials that names a host in [Host] gets the 401 response whose
    [resource_metadata] is computed from [scheme://host], the host being
    the one the request itself named. *)
Theorem discovery_url_provenance verify getToken (request : IncomingMessage)
    (u : URL) :
  noBearer (authHeaderOf request) = true ->
  (forall v,
      env_MCP_SERVER_URL = Some v -> v <> EmptyString ->
      new_URL v = Some u ->
      outcome (run verify getToken request)
      = inl (ThrownResponse (unauthorized NO_BEARER (metadataUrl u))))
  /\ (forall h,
        explicitlyConfigured env_MCP_SERVER_URL = false ->
        headers request !! "host" = Some (HString h) -> h <> EmptyString ->
        new_URL ((if headerIs (headers request !! "x-forwarded-proto") "https"
                  then "https" else "http") +:+ "://" +:+ h) = Some u ->
        outcome (run verify getToken request)
        = inl (ThrownResponse (unauthorized NO_BEARER (metadataUrl u)))).
Proof.
  intros Hb. split.
  - intros v Henv Hv Hu.
    rewrite outcome_by_header_and_base, Hb.
    apply (authenticate_catch_unauthorized _ _ _ _
             {| kind := InvalidRequestError; message := NO_BEARER |});
      simpl; auto.
    unfold getBaseUrl, explicitlyConfigured, MCP_SERVER_URL. rewrite Henv.
    destruct v; [congruence | exact Hu].
  - intros h Hcfg Hhost Hh Hu.
    rewrite outcome_by_header_and_base, Hb.
    apply (authenticate_catch_unauthorized _ _ _ _
             {| kind := InvalidRequestError; message := NO_BEARER |});
      simpl; auto.
    unfold getBaseUrl. rewrite Hcfg, (default_scheme_is_http _ PORT Hcfg).
    assert (headerTruthy (Some (HString h)) = true) as Ht
      by (destruct h; [congruence | reflexivity]).
    unfold headerOr. rewrite Hhost, Ht. cbv iota zeta. rewrite Ht.
    destruct (headerIs (headers request !! "x-forwarded-proto") "https");
      [exact Hu|].
    destruct (headerIs (headers request !! "x-forwarded-proto") "http");
      exact Hu.
Qed.

(** A [Bearer] header with nothing but white space after the scheme is
    not taken for a missing credential: the verifier is asked about the
    empty token and its answer decides, so claims it accepts for the empty
    token give a session whose token is empty. *)
Theorem blank_bearer_reaches_verifier verify getToken
    (request : IncomingMessage) (pad : string) :
  allWhite pad = true ->
  authHeaderOf request = Some ("Bearer " +:+ pad) ->
  noBearer (authHeaderOf request) = false
  /\ outcome (run verify getToken request) =
     match verify EmptyString with
     | inl e =>
         outcome (authenticate_catch URL new_URL metadataUrl
                    (baseUrl request) (ThrownError e))
     | inr decoded =>
         match outcome (buildSession decoded EmptyString) with
         | inl t =>
             outcome (authenticate_catch URL new_URL metadataUrl
                        (baseUrl request) t)
         | inr session => inr session
         end
     end.
Proof.
  intros Hw Hh.
  assert (noBearer (Some ("Bearer " +:+ pad)) = false) as Hb
    by (destruct pad; reflexivity).
  assert (accessTokenOf ("Bearer " +:+ pad) = EmptyString) as Htok.
  { rewrite <- (append_empty_r pad).
    apply (bearer_round_trip_tail pad EmptyString EmptyString); auto. }
  rewrite Hh. split; [exact Hb|].
  rewrite (authenticate_with_bearer _ _ _ _ _ _ _ _ _ Hh Hb), Htok.
  reflexivity.
Qed.

(** The scope gate after authentication.  For a session that
    [authenticate] returned, on claims the verifier decoded, the gate
    [hasAllScopes] accepts a list of required scopes exactly when each of
    them is one of the tokens of the [scope] claim, as a whole token; when
    the claims have no [scope] string the gate accepts the empty list
    only. *)
Theorem gate_after_authenticate verify getToken (request : IncomingMessage)
    (authHeader : string) (decoded : Claims) (session : FastMCPAuthSession)
    (requiredScopes : list string) :
  authHeaderOf request = Some authHeader ->
  verify (accessTokenOf authHeader) = inr decoded ->
  outcome (run verify getToken request) = inr session ->
  (forall lead tokens,
      decoded !! "scope" = Some (JsString (layout lead tokens)) ->
      Forall (fun t => isToken t = true) (tokens.*1) ->
      (hasAllScopes requiredScopes session = true
       <-> forall scope, scope ∈ requiredScopes -> scope ∈ tokens.*1))
  /\ ((forall s, decoded !! "scope" <> Some (JsString s)) ->
      (hasAllScopes requiredScopes session = true <-> requiredScopes = [])).
Proof.
  intros Hh Hv Hs.
  apply authenticate_returns in Hs
    as (h & d & Hh' & _ & Hv' & Hbuild).
  rewrite Hh in Hh'. injection Hh' as <-.
  rewrite Hv in Hv'. injection Hv' as <-.
  apply buildSession_ret_inv in Hbuild as (_ & _ & _ & _ & Hscopes & _).
  assert (hasAllScopes requiredScopes session = true
          <-> forall scope, scope ∈ requiredScopes ->
                            scope ∈ scopesOf (prop decoded "scope")) as Hgate.
  { unfold hasAllScopes. rewrite every_Forall, Forall_forall, Hscopes.
    split; intros H scope Hin; apply array_includes_elem_of, H, Hin. }
  split.
  - intros lead tokens Hscope Hok. rewrite Hgate. unfold prop.
    rewrite Hscope. simpl default. rewrite (scopesOf_layout _ _ Hok).
    reflexivity.
  - intros Hnone. rewrite Hgate.
    assert (scopesOf (prop decoded "scope") = []) as ->.
    { unfold prop. destruct (decoded !! "scope") as [[| | | |s|]|] eqn:E;
        try reflexivity. destruct (Hnone s). reflexivity. }
    split.
    + intros H. destruct requiredScopes as [|r rest]; [reflexivity|].
      assert (r ∈ @nil string) as Hin
        by (apply H, elem_of_cons; left; reflexivity).
      inversion Hin.
    + intros ->. intros scope Hin. inversion Hin.
Qed.

End Composition.

(** The outcome is the same on the bearer request sent to another path
    with another header. *)
Lemma outcome_depends_on_credential_and_base_url_witness :
  authHeaderOf Sample.with_bearer = authHeaderOf Probe.with_bearer_elsewhere
  /\ getBaseUrl None "3001" Sample.with_bearer
     = getBaseUrl None "3001" Probe.with_bearer_elsewhere
  /\ outcome (authenticate None "3001" string Sample.new_URL
                Sample.metadataUrl (Sample.accepts Sample.alice)
                Sample.getToken_ok Sample.with_bearer)
     = outcome (authenticate None "3001" string Sample.new_URL
                  Sample.metadataUrl (Sample.accepts Sample.alice)
                  Sample.getToken_throws Probe.with_bearer_elsewhere).
Proof.
  split; [reflexivity|]. split; [reflexivity|].
  apply (proj1 (outcome_depends_on_credential_and_base_url None "3001"
                  string Sample.new_URL Sample.metadataUrl
                  (Sample.accepts Sample.alice)
                  Sample.getToken_ok Sample.getToken_throws
                  Sample.with_bearer Probe.with_bearer_elsewhere eq_refl)).
  reflexivity.
Defined.

(** The request without credentials names its host, and the challenge
    points there. *)
Lemma discovery_url_provenance_witness :
  noBearer (authHeaderOf Sample.anonymous) = true
  /\ headers Sample.anonymous !! "host" = Some (HString "mcp.example.com")
  /\ Sample.new_URL "http://mcp.example.com" = Some "http://mcp.example.com"
  /\ outcome (authenticate None "3001" string Sample.new_URL
                Sample.metadataUrl (Sample.accepts Sample.alice)
                Sample.getToken_ok Sample.anonymous)
     = inl (ThrownResponse
              (unauthorized NO_BEARER
                 (Sample.metadataUrl "http://mcp.example.com"))).
Proof.
  repeat (split; [reflexivity|]).
  apply (discovery_url_provenance None "3001" string Sample.new_URL
           Sample.metadataUrl (Sample.accepts Sample.alice)
           Sample.getToken_ok Sample.anonymous "http://mcp.example.com"
           eq_refl) with (h := "mcp.example.com");
    [reflexivity | reflexivity | discriminate | reflexivity].
Defined.

(** The scheme followed by blanks, with a verifier that accepts every
    token. *)
Lemma blank_bearer_reaches_verifier_witness :
  allWhite "  " = true
  /\ authHeaderOf Probe.blank_bearer = Some ("Bearer " +:+ "  ")
  /\ noBearer (authHeaderOf Probe.blank_bearer) = false.
Proof.
  split; [reflexivity|]. split; [reflexivity|].
  apply (blank_bearer_reaches_verifier None "3001" string Sample.new_URL
           Sample.metadataUrl (Sample.accepts Sample.alice)
           Sample.getToken_ok Probe.blank_bearer "  "); reflexivity.
Defined.

(** The session of the sample claims passes the gate of [greet]. *)
Lemma gate_after_authenticate_witness :
  authHeaderOf Sample.with_bearer = Some "Bearer  abc.def.ghi "
  /\ Sample.alice !! "scope" = Some (JsString (layout 1 Probe.alice_tokens))
  /\ (hasAllScopes ["tool:greet"] Sample.alice_session = true
      <-> forall scope,
            scope ∈ ["tool:greet"] -> scope ∈ Probe.alice_tokens.*1).
Proof.
  split; [reflexivity|]. split; [reflexivity|].
  apply (gate_after_authenticate None "3001" string Sample.new_URL
           Sample.metadataUrl (Sample.accepts Sample.alice)
           Sample.getToken_ok Sample.with_bearer "Bearer  abc.def.ghi "
           Sample.alice Sample.alice_session ["tool:greet"]
           eq_refl eq_refl eq_refl) with (lead := 1%nat);
    [reflexivity | repeat constructor].
Defined.

(** ** The challenge header *)

Lemma quoteFree_split (m1 m2 r1 r2 : string) :
  quoteFree m1 = true -> quoteFree m2 = true ->
  m1 +:+ String "034" r1 = m2 +:+ String "034" r2 ->
  m1 = m2 /\ r1 = r2.
Proof.
  revert m2. induction m1 as [|c m1 IH]; intros [|d m2] H1 H2 Heq.
  - rewrite !append_empty_l in Heq. injection Heq as ->. auto.
  - rewrite append_empty_l, append_cons in Heq. injection Heq as <- _.
    simpl in H2. discriminate.
  - rewrite append_empty_l, append_cons in Heq. injection Heq as -> _.
    simpl in H1. discriminate.
  - rewrite !append_cons in Heq. injection Heq as -> Heq.
    simpl in H1, H2.
    apply andb_true_iff in H1 as [_ H1]. apply andb_true_iff in H2 as [_ H2].
    destruct (IH m2 H1 H2 Heq) as [-> ->]. auto.
Qed.

Lemma append_inj_r (s1 s2 t : string) : s1 +:+ t = s2 +:+ t -> s1 = s2.
Proof.
  intros H. apply (f_equal String.rev) in H.
  rewrite !rev_append in H. apply String.app_inj in H.
  rewrite <- (rev_involutive s1), <- (rev_involutive s2), H. reflexivity.
Qed.

Lemma spaceFree_split (x1 x2 y1 y2 : string) :
  spaceFree x1 = true -> spaceFree x2 = true ->
  x1 +:+ String " " y1 = x2 +:+ String " " y2 ->
  x1 = x2 /\ y1 = y2.
Proof.
  revert x2. induction x1 as [|c x1 IH]; intros [|d x2] H1 H2 Heq.
  - rewrite !append_empty_l in Heq. injection Heq as ->. auto.
  - rewrite append_empty_l, append_cons in Heq. injection Heq as <- _.
    simpl in H2. discriminate.
  - rewrite append_empty_l, append_cons in Heq. injection Heq as -> _.
    simpl in H1. discriminate.
  - rewrite !append_cons in Heq. injection Heq as -> Heq.
    simpl in H1, H2.
    apply andb_true_iff in H1 as [_ H1]. apply andb_true_iff in H2 as [_ H2].
    destruct (IH x2 H1 H2 Heq) as [-> ->]. auto.
Qed.

Lemma spaceFree_append (a b : string) :
  spaceFree (a +:+ b) = spaceFree a && spaceFree b.
Proof.
  induction a as [|c a IH]; [reflexivity|].
  rewrite append_cons. simpl. rewrite IH, andb_assoc. reflexivity.
Qed.

Lemma spaceFree_rev (s : string) : spaceFree (String.rev s) = spaceFree s.
Proof.
  induction s as [|c s IH]; [reflexivity|].
  rewrite rev_cons, spaceFree_append, IH. simpl.
  rewrite andb_true_r, andb_comm. reflexivity.
Qed.

(** The part of the [WWW-Authenticate] value after its fixed opening,
    read from the end: the closing quote, the URL backwards, the
    parameter name backwards up to its space, and the message backwards. *)
Lemma wwwAuthenticate_tail_rev (msg url : string) :
  String.rev (msg +:+ Js.dquote +:+ ", resource_metadata=" +:+ Js.dquote
              +:+ url +:+ Js.dquote)
  = Js.dquote
    +:+ (String.rev url +:+ Js.dquote +:+ "=atadatem_ecruoser")
    +:+ String " " ("," +:+ Js.dquote +:+ String.rev msg).
Proof.
  rewrite !rev_append, !append_assoc. reflexivity.
Qed.

(** The message and the metadata URL can be read back from the
    [WWW-Authenticate] value, the message going in as it is: two values
    are the same only when made of the same message and the same URL,
    provided the URLs hold no space (the [href] of a URL holds none),
    whatever the messages; and likewise provided the messages hold no
    double quote, whatever the URLs.  The three messages of the program
    itself hold no double quote. *)
Theorem wwwAuthenticate_read_back :
  (forall msg1 url1 msg2 url2,
      spaceFree url1 = true -> spaceFree url2 = true ->
      wwwAuthenticate msg1 url1 = wwwAuthenticate msg2 url2 ->
      msg1 = msg2 /\ url1 = url2)
  /\ (forall msg1 url1 msg2 url2,
        quoteFree msg1 = true -> quoteFree msg2 = true ->
        wwwAuthenticate msg1 url1 = wwwAuthenticate msg2 url2 ->
        msg1 = msg2 /\ url1 = url2)
  /\ quoteFree NO_BEARER = true /\ quoteFree MISSING_SUB = true
  /\ quoteFree MISSING_CLIENT = true.
Proof.
  split; [|split; [|repeat split]].
  - intros msg1 url1 msg2 url2 H1 H2 Heq. unfold wwwAuthenticate in Heq.
    do 6 apply String.app_inj in Heq.
    apply (f_equal String.rev) in Heq.
    rewrite !wwwAuthenticate_tail_rev in Heq.
    apply String.app_inj in Heq.
    apply spaceFree_split in Heq as [Hurl Hmsg];
      [| rewrite spaceFree_append, spaceFree_rev; [rewrite H1 | ..]; reflexivity
       | rewrite spaceFree_append, spaceFree_rev; [rewrite H2 | ..]; reflexivity].
    apply append_inj_r in Hurl. do 2 apply String.app_inj in Hmsg.
    rewrite <- (rev_involutive msg1), <- (rev_involutive msg2), Hmsg.
    rewrite <- (rev_involutive url1), <- (rev_involutive url2), Hurl.
    auto.
  - intros msg1 url1 msg2 url2 H1 H2 Heq. unfold wwwAuthenticate in Heq.
    do 6 apply String.app_inj in Heq.
    change (Js.dquote +:+ ?r) with (String "034" r) in Heq.
    apply (quoteFree_split _ _ _ _ H1 H2) in Heq as [-> Heq].
    split; [reflexivity|].
    do 2 apply String.app_inj in Heq.
    apply append_inj_r in Heq. exact Heq.
Qed.

(** ** The registered tools *)

Lemma offered_gate (auth : FastMCPAuthSession) (scope : string) :
  hasAllScopes [scope] auth = bool_decide (scope ∈ scopes auth).
Proof.
  unfold hasAllScopes. simpl. rewrite andb_true_r.
  destruct (Js.array_includes (scopes auth) scope) eqn:E.
  - symmetry. apply bool_decide_eq_true_2, array_includes_elem_of, E.
  - symmetry. apply bool_decide_eq_false_2. intros Hin.
    apply array_includes_elem_of in Hin. congruence.
Qed.

(** The tools a session is offered after [registerTools]: those it was
    offered before, then [greet] when the session holds [tool:greet],
    [whoami] when it holds [tool:whoami], and [get_datetime] in every
    case, scopes or none. *)
Theorem tools_offered_by_scope (tools : list Tools.Tool)
    (auth : FastMCPAuthSession) :
  List.filter (Tools.offered auth) (Tools.registerTools tools)
  = List.filter (Tools.offered auth) tools
    ++ (if bool_decide ("tool:greet" ∈ scopes auth)
        then [Tools.greet] else [])
    ++ (if bool_decide ("tool:whoami" ∈ scopes auth)
        then [Tools.whoami] else [])
    ++ [Tools.get_datetime].
Proof.
  unfold Tools.registerTools. rewrite !List.filter_app. simpl.
  unfold Tools.offered at 2 3. simpl. rewrite !offered_gate.
  destruct (bool_decide ("tool:greet" ∈ scopes auth)),
           (bool_decide ("tool:whoami" ∈ scopes auth)); reflexivity.
Qed.

(** The discovery metadata and the tools agree.  A session that holds
    the scopes the protected-resource metadata advertises is offered every
    registered tool; the tool scopes are advertised; and the two metadata
    documents name the same issuer, key set and scopes, for every value of
    [AUTH0_DOMAIN], an unset one reading [undefined]. *)
Theorem advertised_scopes_open_every_tool
    (AUTH0_DOMAIN AUTH0_AUDIENCE : option string) :
  (forall auth tool,
      (forall scope,
          scope ∈ Server.scopesSupported
                    (Server.protectedResource AUTH0_DOMAIN AUTH0_AUDIENCE) ->
          scope ∈ scopes auth) ->
      tool ∈ Tools.registerTools [] ->
      Tools.offered auth tool = true)
  /\ (forall scope,
        scope ∈ Tools.MCP_TOOL_SCOPES ->
        scope ∈ Server.scopesSupported
                  (Server.protectedResource AUTH0_DOMAIN AUTH0_AUDIENCE))
  /\ Server.authorizationServers
       (Server.protectedResource AUTH0_DOMAIN AUTH0_AUDIENCE)
     = [Server.issuer (Server.authorizationServer AUTH0_DOMAIN)]
  /\ Server.jwksUri (Server.protectedResource AUTH0_DOMAIN AUTH0_AUDIENCE)
     = Server.as_jwksUri (Server.authorizationServer AUTH0_DOMAIN)
  /\ Server.scopesSupported
       (Server.protectedResource AUTH0_DOMAIN AUTH0_AUDIENCE)
     = Server.as_scopesSupported (Server.authorizationServer AUTH0_DOMAIN)
  /\ Server.issuer (Server.authorizationServer None) = "https://undefined/".
Proof.
  split; [|split; [|repeat split]].
  - intros auth tool Hall Hin.
    assert ("tool:greet" ∈ scopes auth) as Hg
      by (apply Hall;
          cbv [Server.scopesSupported Server.protectedResource
               Tools.MCP_TOOL_SCOPES app];
          rewrite !elem_of_cons; auto 10).
    assert ("tool:whoami" ∈ scopes auth) as Hw
      by (apply Hall;
          cbv [Server.scopesSupported Server.protectedResource
               Tools.MCP_TOOL_SCOPES app];
          rewrite !elem_of_cons; auto 10).
    unfold Tools.registerTools in Hin. simpl in Hin.
    rewrite !elem_of_cons, elem_of_nil in Hin.
    destruct Hin as [-> | [-> | [-> | []]]]; unfold Tools.offered; simpl;
      rewrite ?offered_gate; try reflexivity;
      apply bool_decide_eq_true_2; assumption.
  - intros scope Hin.
    cbv [Server.scopesSupported Server.protectedResource].
    apply elem_of_app. right. exact Hin.
Qed.

Example tools_of_alice :
  Tools.name <$> List.filter (Tools.offered Sample.alice_session)
                             (Tools.registerTools [])
  = ["greet"; "whoami"; "get_datetime"].
Proof. reflexivity. Qed.

(** ** The greeting *)

Lemma endsClean_append (x y : string) :
  Js.nonEmpty y = true -> endsClean y = true ->
  Js.nonEmpty (x +:+ y) = true /\ endsClean (x +:+ y) = true.
Proof.
  intros Hne He. split.
  - destruct x; [exact Hne | reflexivity].
  - unfold endsClean in *. rewrite rev_append.
    destruct y as [|c y]; [discriminate|].
    rewrite rev_cons in *.
    destruct (String.rev y) as [|d r]; exact He.
Qed.

(** What [greet] answers.  For a session built from verified claims the
    text names the caller, [there] when no name is given, and the verified
    subject in brackets; trimming takes nothing away from it.  Without a
    session the subject reads [undefined]. *)
Theorem greet_names_the_subject (other : JsValue -> string)
    (name : option string) :
  (forall decoded accessToken session,
      buildSession decoded accessToken = ret session ->
      exists sub,
        prop decoded "sub" = JsString sub
        /\ outcome (Tools.greet_execute other name (Some session))
           = inr [Tools.TextContent
                    ("Hello, " +:+ default "there" name +:+ " (" +:+ sub
                     +:+ ")!" +:+ Tools.LF +:+ Tools.LF
                     +:+ "FastMCP with Auth0 OAuth integration is working!"
                     +:+ Tools.LF
                     +:+ "Authentication and scope checks are working correctly.")])
  /\ outcome (Tools.greet_execute other name None)
     = inr [Tools.TextContent
              ("Hello, " +:+ default "there" name +:+ " (undefined)!"
               +:+ Tools.LF +:+ Tools.LF
               +:+ "FastMCP with Auth0 OAuth integration is working!"
               +:+ Tools.LF
               +:+ "Authentication and scope checks are working correctly.")].
Proof.
  assert (forall who subject,
             Js.trim ("Hello, " +:+ who +:+ " (" +:+ subject +:+ ")!"
                      +:+ Tools.LF +:+ Tools.LF
                      +:+ "FastMCP with Auth0 OAuth integration is working!"
                      +:+ Tools.LF
                      +:+ "Authentication and scope checks are working correctly.")
             = "Hello, " +:+ who +:+ " (" +:+ subject +:+ ")!"
               +:+ Tools.LF +:+ Tools.LF
               +:+ "FastMCP with Auth0 OAuth integration is working!"
               +:+ Tools.LF
               +:+ "Authentication and scope checks are working correctly.")
    as Htrim.
  { intros who subject.
    match goal with |- Js.trim ?text = _ =>
      rewrite <- (append_empty_r text) at 1;
      apply (trim_padded EmptyString text EmptyString); try reflexivity
    end.
    repeat (apply endsClean_append; try reflexivity). }
  split.
  - intros decoded accessToken session Hbuild.
    apply buildSession_ret_inv in Hbuild
      as (Hsub & _ & _ & _ & _ & _ & Hextra).
    destruct (isNonEmptyString_inv _ Hsub) as (sub & Esub & _).
    exists sub. split; [exact Esub|].
    assert (Tools.subOf (Some session) = JsString sub) as Hs.
    { unfold Tools.subOf, prop.
      rewrite Hextra, (extra_lookup decoded "sub" Hsub), Hsub, Esub.
      reflexivity. }
    unfold Tools.greet_execute. cbv zeta. rewrite outcome_bind, Hs.
    simpl. rewrite Htrim. reflexivity.
  - unfold Tools.greet_execute. cbv zeta. rewrite outcome_bind.
    simpl. rewrite Htrim. reflexivity.
Qed.

Example greet_alice :
  outcome (Tools.greet_execute Probe.other_text (Some "Bob")
             (Some Sample.alice_session))
  = inr [Tools.TextContent
           ("Hello, Bob (auth0|alice)!" +:+ Tools.LF +:+ Tools.LF
            +:+ "FastMCP with Auth0 OAuth integration is working!"
            +:+ Tools.LF
            +:+ "Authentication and scope checks are working correctly.")].
Proof. reflexivity. Qed.

Example blank_bearer_session :
  exists session,
    outcome (authenticate None "3001" string Sample.new_URL
               Sample.metadataUrl (Sample.accepts Sample.alice)
               Sample.getToken_ok Probe.blank_bearer) = inr session
    /\ token session = EmptyString.
Proof. eexists. split; reflexivity. Qed.

(** ** The gate and the scope string, algebraically *)

Lemma every_app {A} (p : A -> bool) (xs ys : list A) :
  Js.every p (xs ++ ys) = Js.every p xs && Js.every p ys.
Proof.
  induction xs as [|x xs IH]; [reflexivity|].
  simpl. rewrite IH, andb_assoc. reflexivity.
Qed.

(** The gate has AND semantics and is monotone: requiring two lists of
    scopes is requiring each; and a session that passes a requirement
    still passes when scopes are taken off the requirement or added to the
    session, so that order and repetition play no part on either side. *)
Theorem gate_is_monotone :
  (forall required1 required2 auth,
      hasAllScopes (required1 ++ required2) auth
      = hasAllScopes required1 auth && hasAllScopes required2 auth)
  /\ (forall required required' auth auth',
        (forall scope, scope ∈ required' -> scope ∈ required) ->
        (forall scope, scope ∈ scopes auth -> scope ∈ scopes auth') ->
        hasAllScopes required auth = true ->
        hasAllScopes required' auth' = true).
Proof.
  split.
  - intros required1 required2 auth. apply every_app.
  - intros required required' auth auth' Hreq Hauth.
    unfold hasAllScopes. rewrite !every_Forall, !Forall_forall.
    intros H scope Hin.
    apply array_includes_elem_of, Hauth, array_includes_elem_of, H, Hreq, Hin.
Qed.

Example gate_ignores_order_and_repetition :
  hasAllScopes ["tool:greet"; "tool:whoami"; "tool:greet"]
               Sample.alice_session = true.
Proof. reflexivity. Qed.

Lemma split_space_joined (s1 s2 : string) :
  Js.split_space (s1 +:+ String " " s2)
  = Js.split_space s1 ++ Js.split_space s2.
Proof.
  induction s1 as [|c s1 IH]; [reflexivity|].
  rewrite append_cons. simpl. rewrite IH.
  destruct (Ascii.eqb c " "); [reflexivity|].
  destruct (split_space_cons s1) as (piece & pieces & ->). reflexivity.
Qed.

(** Two scope strings joined by a space grant the scopes of the first
    followed by the scopes of the second. *)
Theorem scopes_of_joined_strings (s1 s2 : string) :
  scopesOf (JsString (s1 +:+ " " +:+ s2))
  = scopesOf (JsString s1) ++ scopesOf (JsString s2).
Proof.
  unfold scopesOf.
  change (s1 +:+ " " +:+ s2) with (s1 +:+ String " " s2).
  rewrite split_space_joined. apply List.filter_app.
Qed.
